(** * Schema lifecycle of package [entity] (internal/entity/entity.go)

    A shallow embedding of the migration waiter, the table provisioner,
    the lifecycle orchestrator and the fixture gate, together with the
    properties of the design document that concern them.

    The database handle, the logger, the clock, the seed constructors and
    the Go runtime's map iteration are collaborators of this file: they are
    gathered in the record [Collab], and every call the code makes to one
    of them is recorded as an [Event], so that "how many probes", "how many
    sleeps" and "in which order" become statements about lists. *)

From Stdlib Require Import ZArith Lia.
From stdpp Require Import base strings list gmap fin_maps.

Open Scope string_scope.
Open Scope list_scope.

(** ** Data model *)

(** The type handles stored in the registry ([&Account{}], [&File{}], ...). *)
Inductive Entity : Type :=
  | Account | File | FileShare | FileSync | Photo | Description | Place
  | Location | Camera | Lens | Country | Album | PhotoAlbum | Label
  | Category | PhotoLabel | Keyword | PhotoKeyword | Link.

#[global] Instance Entity_eq_dec : EqDecision Entity.
Proof. solve_decision. Defined.

(** [type Types map[string]interface{}] *)
Abbreviation Types := (gmap string Entity).

(** [var Entities = Types{...}], the value the package variable starts with. *)
Definition Entities : Types :=
  list_to_map
    [ ("accounts", Account); ("files", File); ("files_share", FileShare);
      ("files_sync", FileSync); ("photos", Photo);
      ("descriptions", Description); ("places", Place);
      ("locations", Location); ("cameras", Camera); ("lenses", Lens);
      ("countries", Country); ("albums", Album);
      ("photos_albums", PhotoAlbum); ("labels", Label);
      ("categories", Category); ("photos_labels", PhotoLabel);
      ("keywords", Keyword); ("photos_keywords", PhotoKeyword);
      ("links", Link) ].

(** [&Gorm{Driver: ..., Dsn: ...}] *)
Record Gorm : Type := { Driver : string; Dsn : string }.

#[global] Instance Gorm_eq_dec : EqDecision Gorm.
Proof. solve_decision. Defined.

(** A Go [error] is kept as its message, the result of [err.Error()];
    [None] is the nil error. *)
Abbreviation error := (option string).

(** [time.Millisecond], a [time.Duration] counted in nanoseconds. *)
Definition Millisecond : Z := 1000000.

(** One constructor per call that leaves this file. *)
Inductive Event : Type :=
  | EvRawScan (sql : string) (err : error)
  | EvAutoMigrate (entity : Entity) (err : error)
  | EvDropTableIfExists (entity : Entity) (err : error)
  | EvSleep (d : Z)
  | EvDebugf (msg : string)
  | EvCreateUnknownPlace
  | EvCreateUnknownCountry
  | EvCreateUnknownCamera
  | EvCreateUnknownLens
  | EvCreateTestFixtures
  | EvSetDbProvider (db : Gorm).

#[global] Instance Event_eq_dec : EqDecision Event.
Proof. solve_decision. Defined.

(** The collaborators, as transformers of an environment [W] (the
    database, the clock and the runtime's source of iteration orders).
    [mapiter] is the order in which a [for ... range] visits a map: Go
    leaves it unspecified, see [GoMapRange] below. *)
Record Collab (W : Type) : Type := {
  db_Raw_Scan : string -> W -> error * W;
  db_AutoMigrate : Entity -> W -> error * W;
  db_DropTableIfExists : Entity -> W -> error * W;
  time_Sleep : Z -> W -> W;
  mapiter : Types -> W -> list (string * Entity) * W;
  seed_UnknownPlace : W -> W;
  seed_UnknownCountry : W -> W;
  seed_UnknownCamera : W -> W;
  seed_UnknownLens : W -> W;
  seed_TestFixtures : W -> W
}.

Arguments db_Raw_Scan {W} _ _ _.
Arguments db_AutoMigrate {W} _ _ _.
Arguments db_DropTableIfExists {W} _ _ _.
Arguments time_Sleep {W} _ _ _.
Arguments mapiter {W} _ _ _.
Arguments seed_UnknownPlace {W} _ _.
Arguments seed_UnknownCountry {W} _ _.
Arguments seed_UnknownCamera {W} _ _.
Arguments seed_UnknownLens {W} _ _.
Arguments seed_TestFixtures {W} _ _.

(** A [range] over a map visits every key exactly once, in some order. *)
Definition GoMapRange {W} (c : Collab W) : Prop :=
  forall (m : Types) (w : W), fst (mapiter c m w) ≡ₚ map_to_list m.

(** The package-level variables and the environment. [pkgEntities] is the
    variable [Entities]; [resetFixturesOnce] is the [done] flag of the
    [sync.Once]; [dbProvider] is the registered provider, if any. *)
Record State (W : Type) : Type := mkState {
  world : W;
  pkgEntities : Types;
  dbProvider : option Gorm;
  resetFixturesOnce : bool
}.

Arguments mkState {W} _ _ _ _.
Arguments world {W} _.
Arguments pkgEntities {W} _.
Arguments dbProvider {W} _.
Arguments resetFixturesOnce {W} _.

Definition setWorld {W} (s : State W) (w : W) : State W :=
  mkState w (pkgEntities s) (dbProvider s) (resetFixturesOnce s).

(** ** The monad: state, a log of events, and panics *)

Inductive Outcome (A : Type) : Type :=
  | Returned (a : A)
  | Panicked (v : string).

Arguments Returned {A} _.
Arguments Panicked {A} _.

Definition M (W A : Type) : Type := State W -> Outcome A * State W * list Event.

Definition ret {W A} (a : A) : M W A := fun s => (Returned a, s, []).

Definition bind {W A B} (m : M W A) (k : A -> M W B) : M W B :=
  fun s =>
    match m s with
    | (Returned a, s1, evs1) =>
        match k a s1 with
        | (o, s2, evs2) => (o, s2, evs1 ++ evs2)
        end
    | (Panicked v, s1, evs1) => (Panicked v, s1, evs1)
    end.

Definition panic {W A} (v : string) : M W A := fun s => (Panicked v, s, []).

Declare Scope go_scope.
Delimit Scope go_scope with go.
Notation "'let*' x := m 'in' k" := (bind m (fun x => k))
  (at level 10, x name, m at level 100, k at level 200) : go_scope.
Notation "m ;; k" := (bind m (fun _ => k))
  (at level 100, k at level 200, right associativity) : go_scope.
Open Scope go_scope.

(** A call to a collaborator that yields an [error]. *)
Definition call {W} (f : W -> error * W) (ev : error -> Event) : M W error :=
  fun s => let '(err, w) := f (world s) in (Returned err, setWorld s w, [ev err]).

(** A call to a collaborator that yields nothing. *)
Definition call_ {W} (f : W -> W) (ev : Event) : M W unit :=
  fun s => (Returned tt, setWorld s (f (world s)), [ev]).

(** [for ... := range xs { body }] over an already chosen order. *)
Fixpoint forEach {W A} (xs : list A) (body : A -> M W unit) : M W unit :=
  match xs with
  | [] => ret tt
  | x :: xs' => body x ;; forEach xs' body
  end.

(** The runtime picks the order of a [range] over a map. *)
Definition mapRange {W} (c : Collab W) (m : Types) : M W (list (string * Entity)) :=
  fun s => let '(kvs, w) := mapiter c m (world s) in (Returned kvs, setWorld s w, []).

(** ** The collaborators as the code calls them *)

Section Code.

Context {W : Type} (c : Collab W).

(** [Db().Raw(sql).Scan(&struct{}{}).Error] *)
Definition Raw_Scan (sql : string) : M W error :=
  call (db_Raw_Scan c sql) (EvRawScan sql).

(** [Db().AutoMigrate(entity).Error] *)
Definition AutoMigrate (entity : Entity) : M W error :=
  call (db_AutoMigrate c entity) (EvAutoMigrate entity).

(** [Db().DropTableIfExists(entity).Error] *)
Definition DropTableIfExists (entity : Entity) : M W error :=
  call (db_DropTableIfExists c entity) (EvDropTableIfExists entity).

(** [time.Sleep(d)] *)
Definition Sleep (d : Z) : M W unit := call_ (time_Sleep c d) (EvSleep d).

(** [log.Debugf], with the message already formatted; the logger keeps no
    state the code could observe. *)
Definition Debugf (msg : string) : M W unit := fun s => (Returned tt, s, [EvDebugf msg]).

Definition CreateUnknownPlace : M W unit := call_ (seed_UnknownPlace c) EvCreateUnknownPlace.
Definition CreateUnknownCountry : M W unit := call_ (seed_UnknownCountry c) EvCreateUnknownCountry.
Definition CreateUnknownCamera : M W unit := call_ (seed_UnknownCamera c) EvCreateUnknownCamera.
Definition CreateUnknownLens : M W unit := call_ (seed_UnknownLens c) EvCreateUnknownLens.
Definition CreateTestFixtures : M W unit := call_ (seed_TestFixtures c) EvCreateTestFixtures.

(** Modelled from the spec: [HasDbProvider] and [SetDbProvider] are
    declared elsewhere in the package. The provider is "process-wide,
    singly-registered state" with "an explicit already-set guard":
    [HasDbProvider] tells whether one is registered and [SetDbProvider]
    registers its argument. *)
Definition HasDbProvider : M W bool :=
  fun s => (Returned (bool_decide (dbProvider s <> None)), s, []).

Definition SetDbProvider (db : Gorm) : M W unit :=
  fun s => (Returned tt,
            mkState (world s) (pkgEntities s) (Some db) (resetFixturesOnce s),
            [EvSetDbProvider db]).

(** [resetFixturesOnce.Do(f)] as one goroutine sees it: [f] runs if the
    flag is not set, and the flag is set when [f] is over, also when [f]
    panics ([sync.Once] sets it in a deferred call). *)
Definition resetFixturesOnce_Do (f : M W unit) : M W unit :=
  fun s =>
    if resetFixturesOnce s then (Returned tt, s, [])
    else
      match f s with
      | (o, s1, evs) =>
          (o, mkState (world s1) (pkgEntities s1) (dbProvider s1) true, evs)
      end.

(** The value of the package variable [Entities]. *)
Definition readEntities : M W Types := fun s => (Returned (pkgEntities s), s, []).

(** ** entity.go *)

(** [attempts := 100] *)
Definition attempts : nat := 100.

(** [fmt.Sprintf("DESCRIBE `%s`", name)] *)
Definition describe (name : string) : string := "DESCRIBE `" +:+ name +:+ "`".

(** The inner loop of [WaitForMigration],
    [for i := 0; i <= attempts; i++ { ... }], entered at counter [i] with
    [n] iterations left before the condition [i <= attempts] fails
    ([n = attempts + 1 - i]). A [break] ends the loop. *)
Fixpoint waitLoop (name : string) (n i : nat) : M W unit :=
  match n with
  | 0 => ret tt
  | S n' =>
      let* err := Raw_Scan (describe name) in
      match err with
      | None => Debugf ("entity: table " +:+ name +:+ " migrated")
      | Some e =>
          Debugf ("entity: " +:+ e) ;;
          (if Nat.eqb i attempts then panic "migration failed" else ret tt) ;;
          Sleep (50 * Millisecond) ;;
          waitLoop name n' (S i)
      end
  end.

(** [func (list Types) WaitForMigration()] *)
Definition WaitForMigration (lst : Types) : M W unit :=
  let* kvs := mapRange c lst in
  forEach kvs (fun kv => waitLoop (fst kv) (attempts + 1) 0).

(** [func (list Types) Migrate()] *)
Definition Migrate (lst : Types) : M W unit :=
  let* kvs := mapRange c lst in
  forEach kvs (fun kv =>
    let* err := AutoMigrate (snd kv) in
    match err with
    | Some e => panic e
    | None => ret tt
    end).

(** [func (list Types) Drop()] *)
Definition Drop (lst : Types) : M W unit :=
  let* kvs := mapRange c lst in
  forEach kvs (fun kv =>
    let* err := DropTableIfExists (snd kv) in
    match err with
    | Some e => panic e
    | None => ret tt
    end).

(** [func MigrateDb()] *)
Definition MigrateDb : M W unit :=
  (let* lst := readEntities in Migrate lst) ;;
  (let* lst := readEntities in WaitForMigration lst) ;;
  CreateUnknownPlace ;;
  CreateUnknownCountry ;;
  CreateUnknownCamera ;;
  CreateUnknownLens.

(** [func DropTables()] *)
Definition DropTables : M W unit :=
  let* lst := readEntities in Drop lst.

(** [func ResetDb(testFixtures bool)] *)
Definition ResetDb (testFixtures : bool) : M W unit :=
  DropTables ;;
  MigrateDb ;;
  (if testFixtures then CreateTestFixtures else ret tt).

(** [func InitTestFixtures()] *)
Definition InitTestFixtures : M W unit :=
  resetFixturesOnce_Do (ResetDb true).

(** [func InitTestDb(dsn string) *Gorm]; [None] is the nil pointer. *)
Definition InitTestDb (dsn : string) : M W (option Gorm) :=
  let* has := HasDbProvider in
  if has then ret None
  else
    let db := {| Driver := "mysql"; Dsn := dsn |} in
    SetDbProvider db ;;
    InitTestFixtures ;;
    ret (Some db).

End Code.

(** ** Reading the log *)

(** Number of events of a kind. *)
Fixpoint count (p : Event -> bool) (evs : list Event) : nat :=
  match evs with
  | [] => 0
  | e :: evs' => (if p e then 1 else 0) + count p evs'
  end.

(** A probe of table [name]: the statement [DESCRIBE `name`]. *)
Definition isProbe (name : string) (e : Event) : bool :=
  match e with
  | EvRawScan sql _ => bool_decide (sql = describe name)
  | _ => false
  end.

Definition isRawScan (e : Event) : bool :=
  match e with EvRawScan _ _ => true | _ => false end.

Definition isSleep (e : Event) : bool :=
  match e with EvSleep _ => true | _ => false end.

(** A backoff sleep of exactly 50ms. *)
Definition isBackoff (e : Event) : bool :=
  match e with EvSleep d => Z.eqb d (50 * Millisecond) | _ => false end.

Definition isAutoMigrate (e : Event) : bool :=
  match e with EvAutoMigrate _ _ => true | _ => false end.

Definition isDrop (e : Event) : bool :=
  match e with EvDropTableIfExists _ _ => true | _ => false end.

Definition isSeed (e : Event) : bool :=
  match e with
  | EvCreateUnknownPlace | EvCreateUnknownCountry
  | EvCreateUnknownCamera | EvCreateUnknownLens => true
  | _ => false
  end.

Definition isEvent (e0 e : Event) : bool := bool_decide (e = e0).

(** What the waiter emits: probes, log lines and sleeps. *)
Definition isWaitEvent (e : Event) : bool :=
  match e with
  | EvRawScan _ _ | EvDebugf _ | EvSleep _ => true
  | _ => false
  end.

(** The result of the first probe of table [name] in a log, if there is one. *)
Fixpoint firstProbe (name : string) (evs : list Event) : option error :=
  match evs with
  | [] => None
  | e :: evs' =>
      if isProbe name e
      then match e with EvRawScan _ err => Some err | _ => None end
      else firstProbe name evs'
  end.

(** ** A scripted database, for running the code on concrete inputs *)

(** The reference entities that have a default row. *)
Inductive Seed : Type := UnknownPlace | UnknownCountry | UnknownCamera | UnknownLens.

#[global] Instance Seed_eq_dec : EqDecision Seed.
Proof. solve_decision. Defined.

(** [missing] lists the statements that fail for ever; [notReady] gives,
    per statement, how many more probes of it fail; [broken] lists the entities whose DDL statements fail; [tables] are
    the tables that exist; [seedRows] are the default rows, one list
    element per row; [fixtures] counts the fixture loads. *)
Record Mock : Type := mkMock {
  missing : list string;
  notReady : gmap string nat;
  broken : list Entity;
  tables : list Entity;
  seedRows : list Seed;
  fixtures : nat
}.

Definition mock_Raw_Scan (sql : string) (w : Mock) : error * Mock :=
  if bool_decide (sql ∈ missing w) then (Some "Table doesn't exist", w) else
  match notReady w !! sql with
  | Some (S n) =>
      (Some "Table doesn't exist",
       mkMock (missing w) (<[sql := n]> (notReady w)) (broken w) (tables w) (seedRows w) (fixtures w))
  | _ => (None, w)
  end.

Definition mock_AutoMigrate (e : Entity) (w : Mock) : error * Mock :=
  if bool_decide (e ∈ broken w) then (Some "Error 1044: access denied", w)
  else if bool_decide (e ∈ tables w) then (None, w)
  else (None, mkMock (missing w) (notReady w) (broken w) (e :: tables w) (seedRows w) (fixtures w)).

Definition mock_DropTableIfExists (e : Entity) (w : Mock) : error * Mock :=
  if bool_decide (e ∈ broken w) then (Some "Error 1044: access denied", w)
  else (None, mkMock (missing w) (notReady w) (broken w)
                (List.filter (fun e' => negb (bool_decide (e' = e))) (tables w))
                (seedRows w) (fixtures w)).

(** Modelled from the spec: the seed constructors [CreateUnknownPlace],
    [CreateUnknownCountry], [CreateUnknownCamera] and [CreateUnknownLens]
    are declared elsewhere in the package. Each is a "parameterless
    operation that inserts a canonical unknown/default row", with
    "insert-if-absent semantics": the row is added when no such row exists
    and nothing changes otherwise. *)
Definition mock_seed (k : Seed) (w : Mock) : Mock :=
  if bool_decide (k ∈ seedRows w) then w
  else mkMock (missing w) (notReady w) (broken w) (tables w) (k :: seedRows w) (fixtures w).

Definition mock_TestFixtures (w : Mock) : Mock :=
  mkMock (missing w) (notReady w) (broken w) (tables w) (seedRows w) (S (fixtures w)).

Definition mock : Collab Mock := {|
  db_Raw_Scan := mock_Raw_Scan;
  db_AutoMigrate := mock_AutoMigrate;
  db_DropTableIfExists := mock_DropTableIfExists;
  time_Sleep := fun _ w => w;
  mapiter := fun m w => (map_to_list m, w);
  seed_UnknownPlace := mock_seed UnknownPlace;
  seed_UnknownCountry := mock_seed UnknownCountry;
  seed_UnknownCamera := mock_seed UnknownCamera;
  seed_UnknownLens := mock_seed UnknownLens;
  seed_TestFixtures := mock_TestFixtures
|}.

(** A database on which every statement succeeds at once. *)
Definition freshDb : Mock := mkMock [] ∅ [] [] [] 0.

(** A database on which the probe of [name] fails [n] times, then succeeds. *)
Definition slowDb (name : string) (n : nat) : Mock :=
  mkMock [] {[ describe name := n ]} [] [] [] 0.

(** A database on which the probe of [name] never succeeds. *)
Definition deadDb (name : string) : Mock :=
  mkMock [describe name] ∅ [] [] [] 0.

(** A database that refuses the DDL statements of the entities [es]. *)
Definition brokenDb (es : list Entity) : Mock := mkMock [] ∅ es [] [] 0.

(** A process that has just started on environment [w] with registry [m]. *)
Definition start {W} (m : Types) (w : W) : State W := mkState w m None false.

Definition camerasLenses : Types := {[ "cameras" := Camera; "lenses" := Lens ]}.

(** The three components of a run. *)
Definition outcome {W A} (r : Outcome A * State W * list Event) : Outcome A := fst (fst r).
Definition final {W A} (r : Outcome A * State W * list Event) : State W := snd (fst r).
Definition events {W A} (r : Outcome A * State W * list Event) : list Event := snd r.

(** ** Notions used in the statements *)

Section Notions.

Context {W : Type} (c : Collab W).

(** The wait for one table: the inner loop from [i := 0]. *)
Definition waitTable (name : string) : M W unit := waitLoop c name (attempts + 1) 0.

(** The body of the outer loop of [WaitForMigration]. *)
Definition waitBody (kv : string * Entity) : M W unit := waitTable (fst kv).

(** The environment after one failed probe of [name] and the sleep that
    follows it. *)
Definition retryWorld (name : string) (w : W) : W :=
  time_Sleep c (50 * Millisecond) (snd (db_Raw_Scan c (describe name) w)).

(** The result of a probe of [name] after [j] failed rounds. *)
Definition probeAt (name : string) (j : nat) (w : W) : error :=
  fst (db_Raw_Scan c (describe name) (Nat.iter j (retryWorld name) w)).

(** The probe of [name], retried from environment [w], first succeeds on
    attempt number [k] (counted from 1). *)
Definition readableOn (name : string) (k : nat) (w : W) : Prop :=
  match k with
  | 0 => False
  | S j => (forall t, t < j -> probeAt name t w <> None) /\ probeAt name j w = None
  end.

(** The probe of [name], retried from [w], fails [n] times in a row. *)
Definition unreadableFor (name : string) (n : nat) (w : W) : Prop :=
  forall t, t < n -> probeAt name t w <> None.

(** The environment after the four seed constructors, in the order of
    [MigrateDb]. *)
Definition seeded (w : W) : W :=
  seed_UnknownLens c (seed_UnknownCamera c (seed_UnknownCountry c (seed_UnknownPlace c w))).

Definition seedEvents : list Event :=
  [EvCreateUnknownPlace; EvCreateUnknownCountry; EvCreateUnknownCamera; EvCreateUnknownLens].

(** What [MigrateDb] emits. *)
Definition isMigrateEvent (e : Event) : bool :=
  isAutoMigrate e || isWaitEvent e || isSeed e.

(** The provider [db] registered in [s]. *)
Definition registered (s : State W) (db : Gorm) : State W :=
  mkState (world s) (pkgEntities s) (Some db) (resetFixturesOnce s).

End Notions.

Section ProvisionerNotions.

Context {W : Type}.

(** [Migrate] and [Drop] are the same loop around two different calls:
    [f] is the call and [ev] the event that records it. *)
Context (f : Entity -> W -> error * W) (ev : Entity -> error -> Event).

Definition ddlBody (kv : string * Entity) : M W unit :=
  let* err := call (f (snd kv)) (ev (snd kv)) in
  match err with
  | Some e => panic e
  | None => ret tt
  end.

(** The events of calls that all succeeded. *)
Definition okEvents (kvs : list (string * Entity)) : list Event :=
  map (fun kv => ev (snd kv) None) kvs.

(** The environment after the calls for [es], made in turn from [w], when
    none of them reports an error. *)
Fixpoint allOk (es : list Entity) (w : W) : option W :=
  match es with
  | [] => Some w
  | e :: es' =>
      match f e w with
      | (None, w') => allOk es' w'
      | (Some _, _) => None
      end
  end.

(** The contract of a provisioner loop over registry [lst], for the call
    [f] recorded by [ev], as seen on a run [r] of it:
    - a run that returns has called [f] once for every registered entity,
      in some order, and no call reported an error; a run that panics has
      stopped at the first call that reported an error, with that error as
      the panic value; in both cases the run yields no value but [tt];
    - a registered entity for which [f] always reports an error makes the
      run panic;
    - if [f] never reports an error for a registered entity, the run
      returns. *)
Definition FatalOnError (lst : Types) (r : Outcome unit * State W * list Event) : Prop :=
  match outcome r with
  | Returned _ =>
      exists kvs, kvs ≡ₚ map_to_list lst /\ events r = okEvents kvs
  | Panicked v =>
      exists pre name ent post,
        pre ++ (name, ent) :: post ≡ₚ map_to_list lst
        /\ events r = okEvents pre ++ [ev ent (Some v)]
  end
  /\ (forall name ent,
        lst !! name = Some ent -> (forall w, fst (f ent w) <> None) ->
        exists v, outcome r = Panicked v)
  /\ ((forall name ent w, lst !! name = Some ent -> fst (f ent w) = None) ->
      outcome r = Returned tt).

End ProvisionerNotions.

(** The seed constructor of a reference entity. *)
Definition seedOp {W} (c : Collab W) (k : Seed) : W -> W :=
  match k with
  | UnknownPlace => seed_UnknownPlace c
  | UnknownCountry => seed_UnknownCountry c
  | UnknownCamera => seed_UnknownCamera c
  | UnknownLens => seed_UnknownLens c
  end.

(** Modelled from the spec: the seed constructors are declared elsewhere
    in the package; "seed insertion is idempotent: re-running must not
    duplicate rows (insert-if-absent semantics delegated to the
    seed-creation collaborator)". With [rows k w] the number of default
    rows of reference entity [k] in environment [w]: a constructor inserts
    its row when there is none, leaves its rows alone when there is one,
    and never touches the rows of the other reference entities. *)
Record InsertIfAbsent {W} (c : Collab W) (rows : Seed -> W -> nat) : Prop := {
  seed_inserts : forall k w, rows k w = 0 -> rows k (seedOp c k w) = 1;
  seed_keeps : forall k w, rows k w <> 0 -> rows k (seedOp c k w) = rows k w;
  seed_frame : forall k k' w, k <> k' -> rows k' (seedOp c k w) = rows k' w
}.

(** Modelled from the spec: the database handle is an external
    collaborator; schema creation is "create-if-absent", the probe is "a
    raw read-only probe query", and neither a sleep nor the choice of an
    iteration order writes to the database: none of them changes the
    default rows. *)
Record KeepsRows {W} (c : Collab W) (rows : Seed -> W -> nat) : Prop := {
  rows_AutoMigrate : forall k ent w, rows k (snd (db_AutoMigrate c ent w)) = rows k w;
  rows_Raw_Scan : forall k sql w, rows k (snd (db_Raw_Scan c sql w)) = rows k w;
  rows_Sleep : forall k d w, rows k (time_Sleep c d w) = rows k w;
  rows_mapiter : forall k m w, rows k (snd (mapiter c m w)) = rows k w
}.

(** The number of default rows of a reference entity in the scripted
    database. *)
Definition mockRows (k : Seed) (w : Mock) : nat := count_occ Seed_eq_dec (seedRows w) k.

(** A log line. *)
Definition isDebugf (e : Event) : bool :=
  match e with EvDebugf _ => true | _ => false end.

(** A probe of table [name] that succeeded. *)
Definition isOkProbe (name : string) (e : Event) : bool :=
  match e with
  | EvRawScan sql None => bool_decide (sql = describe name)
  | _ => false
  end.

(** A call that registers a provider. *)
Definition isSetDbProvider (e : Event) : bool :=
  match e with EvSetDbProvider _ => true | _ => false end.

(** What the wait emits for the tables [kvs] when the first probe of each
    succeeds: the probe and the log line of its success, table after
    table. *)
Definition readyEvents (kvs : list (string * Entity)) : list Event :=
  concat (map (fun kv => [EvRawScan (describe (fst kv)) None;
                          EvDebugf ("entity: table " +:+ fst kv +:+ " migrated")]) kvs).

(** The database answers the first probe of each of the tables [kvs]
    without error, when they are probed one after the other from
    environment [w]. *)
Fixpoint readableAtOnce {W} (c : Collab W) (kvs : list (string * Entity)) (w : W) : Prop :=
  match kvs with
  | [] => True
  | kv :: kvs' =>
      fst (db_Raw_Scan c (describe (fst kv)) w) = None
      /\ readableAtOnce c kvs' (snd (db_Raw_Scan c (describe (fst kv)) w))
  end.

(** The environment after one probe of each of the tables [kvs]. *)
Fixpoint probedWorld {W} (c : Collab W) (kvs : list (string * Entity)) (w : W) : W :=
  match kvs with
  | [] => w
  | kv :: kvs' => probedWorld c kvs' (snd (db_Raw_Scan c (describe (fst kv)) w))
  end.

(** ** Basic facts about the monad and the log *)

Arguments describe : simpl never.
Arguments Millisecond : simpl never.

Lemma count_app p evs1 evs2 : count p (evs1 ++ evs2) = count p evs1 + count p evs2.
Proof. induction evs1 as [|e evs1 IH]; simpl; [reflexivity | rewrite IH; lia]. Qed.

Lemma describe_inj name1 name2 : describe name1 = describe name2 -> name1 = name2.
Proof.
  unfold describe. intros H.
  apply (inj (String.append "DESCRIBE `")) in H.
  revert name2 H. induction name1 as [|a n1 IH]; intros [|b n2] H; simpl in H.
  - reflexivity.
  - destruct n2; simpl in H; discriminate.
  - destruct n1; simpl in H; discriminate.
  - injection H as -> H. f_equal. apply IH. assumption.
Qed.

Lemma isProbe_self name err : isProbe name (EvRawScan (describe name) err) = true.
Proof. simpl. apply bool_decide_eq_true_2. reflexivity. Qed.

Lemma isProbe_other name name' err :
  name' <> name -> isProbe name (EvRawScan (describe name') err) = false.
Proof.
  intros Hne. simpl. apply bool_decide_eq_false_2.
  intros H. apply Hne, describe_inj, H.
Qed.

Lemma bind_assoc {W A B C} (m : M W A) (f : A -> M W B) (g : B -> M W C) s :
  bind (bind m f) g s = bind m (fun a => bind (f a) g) s.
Proof.
  unfold bind. destruct (m s) as [[[a|v] s1] evs1]; [|reflexivity].
  destruct (f a s1) as [[[b|v] s2] evs2]; [|reflexivity].
  destruct (g b s2) as [[o s3] evs3]. rewrite app_assoc. reflexivity.
Qed.

Lemma bind_ret_l {W A B} (a : A) (k : A -> M W B) s : bind (ret a) k s = k a s.
Proof. unfold bind, ret. destruct (k a s) as [[o s1] evs]. reflexivity. Qed.

Lemma bind_ext {W A B} (m : M W A) (k1 k2 : A -> M W B) s :
  (forall a s', k1 a s' = k2 a s') -> bind m k1 s = bind m k2 s.
Proof.
  intros H. unfold bind. destruct (m s) as [[[a|v] s1] evs1]; [|reflexivity].
  rewrite H. reflexivity.
Qed.

Lemma forEach_app {W A} (xs ys : list A) (body : A -> M W unit) s :
  forEach (xs ++ ys) body s = bind (forEach xs body) (fun _ => forEach ys body) s.
Proof.
  revert s. induction xs as [|x xs IH]; intros s; simpl.
  - rewrite bind_ret_l. reflexivity.
  - rewrite bind_assoc. apply bind_ext. intros _ s'. apply IH.
Qed.

Lemma bind_run {W A B} (m : M W A) (k : A -> M W B) s :
  bind m k s =
    match outcome (m s) with
    | Returned a =>
        (outcome (k a (final (m s))), final (k a (final (m s))),
         events (m s) ++ events (k a (final (m s))))
    | Panicked v => (Panicked v, final (m s), events (m s))
    end.
Proof.
  unfold bind, outcome, final, events.
  destruct (m s) as [[[a|v] s1] evs1]; cbn [fst snd]; [|reflexivity].
  destruct (k a s1) as [[o s2] evs2]. reflexivity.
Qed.

Lemma bind_returned {W A B} (m : M W A) (k : A -> M W B) s a s1 evs1 :
  m s = (Returned a, s1, evs1) ->
  bind m k s = (outcome (k a s1), final (k a s1), evs1 ++ events (k a s1)).
Proof. intros E. rewrite bind_run, E. reflexivity. Qed.

Lemma bind_panicked {W A B} (m : M W A) (k : A -> M W B) s v s1 evs1 :
  m s = (Panicked v, s1, evs1) -> bind m k s = (Panicked v, s1, evs1).
Proof. intros E. rewrite bind_run, E. reflexivity. Qed.

Lemma outcome_mk {W A} (o : Outcome A) (s : State W) evs : outcome (o, s, evs) = o.
Proof. reflexivity. Qed.

Lemma final_mk {W A} (o : Outcome A) (s : State W) evs : final (o, s, evs) = s.
Proof. reflexivity. Qed.

Lemma events_mk {W A} (o : Outcome A) (s : State W) evs : events (o, s, evs) = evs.
Proof. reflexivity. Qed.

(** Project a run that is written as a triple. *)
Ltac proj_run := rewrite ?outcome_mk, ?final_mk, ?events_mk.

Lemma run_eta {W A} (r : Outcome A * State W * list Event) :
  r = (outcome r, final r, events r).
Proof. destruct r as [[o s] evs]. reflexivity. Qed.

Lemma setWorld_world {W} (s : State W) : setWorld s (world s) = s.
Proof. destruct s; reflexivity. Qed.

(** ** The migration waiter *)

Section Waiter.

Context {W : Type} (c : Collab W).

Lemma probeAt_S name t w : probeAt c name (S t) w = probeAt c name t (retryWorld c name w).
Proof. unfold probeAt. rewrite Nat.iter_succ_r. reflexivity. Qed.

(** The three ways through one iteration of the loop. *)
Lemma waitLoop_break name n i (s : State W) w1 :
  db_Raw_Scan c (describe name) (world s) = (None, w1) ->
  waitLoop c name (S n) i s =
    (Returned tt, setWorld s w1,
     [EvRawScan (describe name) None;
      EvDebugf ("entity: table " +:+ name +:+ " migrated")]).
Proof.
  intros E. simpl. unfold bind, Raw_Scan, call, Debugf. rewrite E. reflexivity.
Qed.

Lemma waitLoop_panic name n (s : State W) e w1 :
  db_Raw_Scan c (describe name) (world s) = (Some e, w1) ->
  waitLoop c name (S n) attempts s =
    (Panicked "migration failed", setWorld s w1,
     [EvRawScan (describe name) (Some e); EvDebugf ("entity: " +:+ e)]).
Proof.
  intros E. simpl. unfold bind, Raw_Scan, call, Debugf, panic. rewrite E.
  reflexivity.
Qed.

Lemma waitLoop_retry name n i (s : State W) e w1 :
  db_Raw_Scan c (describe name) (world s) = (Some e, w1) ->
  i <> attempts ->
  waitLoop c name (S n) i s =
    (outcome (waitLoop c name n (S i) (setWorld s (time_Sleep c (50 * Millisecond) w1))),
     final (waitLoop c name n (S i) (setWorld s (time_Sleep c (50 * Millisecond) w1))),
     EvRawScan (describe name) (Some e) :: EvDebugf ("entity: " +:+ e)
       :: EvSleep (50 * Millisecond)
       :: events (waitLoop c name n (S i) (setWorld s (time_Sleep c (50 * Millisecond) w1)))).
Proof.
  intros E Hne. apply Nat.eqb_neq in Hne.
  cbn [waitLoop]. unfold bind at 1. unfold Raw_Scan at 1, call at 1. rewrite E.
  rewrite Hne. unfold bind, Debugf, Sleep, call_, ret. cbn [world setWorld].
  change (setWorld (setWorld s w1) (time_Sleep c (50 * Millisecond) w1))
    with (setWorld s (time_Sleep c (50 * Millisecond) w1)).
  destruct (waitLoop c name n (S i) (setWorld s (time_Sleep c (50 * Millisecond) w1)))
    as [[o s'] evs].
  destruct o; reflexivity.
Qed.

(** A probe that succeeds after [j] failures ends the loop: [j + 1]
    probes, [j] sleeps of 50ms, and nothing but waiter events. *)
Lemma waitLoop_readable name j :
  forall n i (s : State W),
    j < n -> i + j <= attempts ->
    (forall t, t < j -> probeAt c name t (world s) <> None) ->
    probeAt c name j (world s) = None ->
    exists evs,
      waitLoop c name n i s =
        (Returned tt,
         setWorld s (snd (db_Raw_Scan c (describe name)
                            (Nat.iter j (retryWorld c name) (world s)))),
         evs)
      /\ count (isProbe name) evs = S j
      /\ count isRawScan evs = S j
      /\ count isSleep evs = j
      /\ count isBackoff evs = j
      /\ forallb isWaitEvent evs = true.
Proof.
  induction j as [|j IH]; intros n i s Hn Hi Hfail Hok.
  - destruct n as [|n]; [lia|].
    unfold probeAt in Hok. cbn [Nat.iter nat_rect] in Hok |- *.
    destruct (db_Raw_Scan c (describe name) (world s)) as [err w1] eqn:E.
    cbn [fst] in Hok. subst err.
    rewrite (waitLoop_break _ _ _ _ _ E).
    eexists. split; [reflexivity|].
    cbn. rewrite bool_decide_eq_true_2 by reflexivity. auto.
  - destruct n as [|n]; [lia|].
    pose proof (Hfail 0 ltac:(lia)) as H0.
    unfold probeAt in H0. cbn [Nat.iter nat_rect] in H0.
    destruct (db_Raw_Scan c (describe name) (world s)) as [err w1] eqn:E.
    cbn [fst] in H0. destruct err as [e|]; [|congruence].
    assert (Hw : retryWorld c name (world s) = time_Sleep c (50 * Millisecond) w1)
      by (unfold retryWorld; rewrite E; reflexivity).
    destruct (IH n (S i) (setWorld s (time_Sleep c (50 * Millisecond) w1)))
      as (evs & Hrun & Hp & Hr & Hs & Hb & Hwt).
    + lia.
    + lia.
    + intros t Ht. cbn [world setWorld]. rewrite <- Hw, <- probeAt_S. apply Hfail. lia.
    + cbn [world setWorld]. rewrite <- Hw, <- probeAt_S. assumption.
    + rewrite (waitLoop_retry _ _ _ _ _ _ E) by lia.
      rewrite Hrun. unfold outcome, final, events. cbn [fst snd world setWorld].
      rewrite Nat.iter_succ_r, Hw.
      eexists. split; [reflexivity|].
      cbn [count isProbe isRawScan isSleep isBackoff forallb isWaitEvent].
      rewrite bool_decide_eq_true_2 by reflexivity.
      rewrite Hp, Hr, Hs, Hb, Hwt, Z.eqb_refl. auto.
Qed.

(** A probe that never succeeds: the loop runs its [n] remaining
    iterations, sleeps between them, and panics in the last one. *)
Lemma waitLoop_unreadable name :
  forall n i (s : State W),
    0 < n -> n + i = attempts + 1 ->
    unreadableFor c name n (world s) ->
    exists s' evs,
      waitLoop c name n i s = (Panicked "migration failed", s', evs)
      /\ count (isProbe name) evs = n
      /\ count isSleep evs = n - 1.
Proof.
  induction n as [|n IH]; intros i s Hn Hi Hfail; [lia|].
  pose proof (Hfail 0 ltac:(lia)) as H0.
  unfold probeAt in H0. cbn [Nat.iter nat_rect] in H0.
  destruct (db_Raw_Scan c (describe name) (world s)) as [err w1] eqn:E.
  cbn [fst] in H0. destruct err as [e|]; [|congruence].
  destruct n as [|n].
  - assert (i = attempts) as -> by lia.
    rewrite (waitLoop_panic _ _ _ _ _ E).
    do 2 eexists. split; [reflexivity|].
    cbn. rewrite bool_decide_eq_true_2 by reflexivity. auto.
  - assert (Hw : retryWorld c name (world s) = time_Sleep c (50 * Millisecond) w1)
      by (unfold retryWorld; rewrite E; reflexivity).
    destruct (IH (S i) (setWorld s (time_Sleep c (50 * Millisecond) w1)))
      as (s' & evs & Hrun & Hp & Hs).
    + lia.
    + lia.
    + intros t Ht. cbn [world setWorld]. rewrite <- Hw, <- probeAt_S. apply Hfail. lia.
    + rewrite (waitLoop_retry _ _ _ _ _ _ E) by lia.
      rewrite Hrun. unfold outcome, final, events. cbn [fst snd].
      do 2 eexists. split; [reflexivity|].
      cbn [count isProbe isSleep].
      rewrite bool_decide_eq_true_2 by reflexivity.
      rewrite Hp, Hs. lia.
Qed.

(** The wait for one table never probes another one. *)
Lemma waitLoop_other name name' :
  name' <> name ->
  forall n i (s : State W), count (isProbe name) (events (waitLoop c name' n i s)) = 0.
Proof.
  intros Hne. induction n as [|n IH]; intros i s; [reflexivity|].
  destruct (db_Raw_Scan c (describe name') (world s)) as [[e|] w1] eqn:E.
  - destruct (decide (i = attempts)) as [->|Hi].
    + rewrite (waitLoop_panic _ _ _ _ _ E). unfold events. cbn [snd count].
      rewrite isProbe_other by assumption. reflexivity.
    + rewrite (waitLoop_retry _ _ _ _ _ _ E) by assumption.
      unfold events at 1. cbn [snd count]. rewrite isProbe_other by assumption.
      rewrite IH. reflexivity.
  - rewrite (waitLoop_break _ _ _ _ _ E). unfold events. cbn [snd count].
    rewrite isProbe_other by assumption. reflexivity.
Qed.

(** The loop emits waiter events only. *)
Lemma waitLoop_events name :
  forall n i (s : State W), forallb isWaitEvent (events (waitLoop c name n i s)) = true.
Proof.
  induction n as [|n IH]; intros i s; [reflexivity|].
  destruct (db_Raw_Scan c (describe name) (world s)) as [[e|] w1] eqn:E.
  - destruct (decide (i = attempts)) as [->|Hi].
    + rewrite (waitLoop_panic _ _ _ _ _ E). reflexivity.
    + rewrite (waitLoop_retry _ _ _ _ _ _ E) by assumption.
      unfold events at 1. cbn [snd forallb isWaitEvent]. apply IH.
  - rewrite (waitLoop_break _ _ _ _ _ E). reflexivity.
Qed.

End Waiter.

Section WaitAll.

Context {W : Type} (c : Collab W).

Lemma WaitForMigration_run (lst : Types) (s : State W) :
  WaitForMigration c lst s =
    forEach (fst (mapiter c lst (world s))) (waitBody c)
            (setWorld s (snd (mapiter c lst (world s)))).
Proof.
  unfold WaitForMigration, mapRange.
  destruct (mapiter c lst (world s)) as [kvs w] eqn:E.
  erewrite bind_returned by (rewrite E; reflexivity).
  cbn [fst snd app]. symmetry. apply run_eta.
Qed.

Lemma forEach_wait_other name kvs :
  name ∉ kvs.*1 ->
  forall s : State W, count (isProbe name) (events (forEach kvs (waitBody c) s)) = 0.
Proof.
  induction kvs as [|[name' ent] kvs IH]; intros Hnot s; [reflexivity|].
  rewrite fmap_cons in Hnot. apply not_elem_of_cons in Hnot as [Hne Hnot].
  cbn [forEach]. rewrite bind_run.
  assert (H1 : count (isProbe name) (events (waitBody c (name', ent) s)) = 0)
    by apply (waitLoop_other c name name' (not_eq_sym Hne)).
  destruct (outcome (waitBody c (name', ent) s)).
  - unfold events at 1. cbn [snd]. rewrite count_app, H1, IH by assumption. reflexivity.
  - exact H1.
Qed.

Lemma forEach_wait_events kvs :
  forall s : State W, forallb isWaitEvent (events (forEach kvs (waitBody c) s)) = true.
Proof.
  induction kvs as [|[name ent] kvs IH]; intros s; [reflexivity|].
  cbn [forEach]. rewrite bind_run.
  assert (H1 : forallb isWaitEvent (events (waitBody c (name, ent) s)) = true)
    by apply (waitLoop_events c name).
  destruct (outcome (waitBody c (name, ent) s)).
  - unfold events at 1. cbn [snd]. rewrite forallb_app, H1, IH. reflexivity.
  - exact H1.
Qed.

Lemma range_split_names (lst : Types) w pre name ent post :
  GoMapRange c ->
  fst (mapiter c lst w) = pre ++ (name, ent) :: post ->
  (name ∉ pre.*1) /\ (name ∉ post.*1).
Proof.
  intros Hrange Hsplit.
  assert (Hnd : NoDup (fst (mapiter c lst w)).*1).
  { rewrite (Hrange lst w). apply NoDup_fst_map_to_list. }
  rewrite Hsplit, fmap_app, fmap_cons in Hnd. cbn [fst] in Hnd.
  apply NoDup_app in Hnd as (_ & Hpre & Hnd).
  apply NoDup_cons in Hnd as [Hpost _].
  split; [|assumption].
  intros Hin. apply (Hpre _ Hin). left.
Qed.

(** C1, as the code has it. When the wait reaches a table whose probe
    never succeeds, [WaitForMigration] panics with "migration failed"
    after [attempts + 1 = 101] probes of that table and [attempts = 100]
    sleeps: the loop counter runs from 0 to [attempts] inclusive, one probe
    more than the attempt ceiling of 100. *)
Theorem WaitForMigration_unreadable_101_probes
    (lst : Types) (s s1 : State W) (name : string) (ent : Entity)
    (pre post : list (string * Entity)) (evs1 : list Event) :
  fst (mapiter c lst (world s)) = pre ++ (name, ent) :: post ->
  forEach pre (waitBody c) (setWorld s (snd (mapiter c lst (world s))))
    = (Returned tt, s1, evs1) ->
  (forall t, probeAt c name t (world s1) <> None) ->
  exists s' seg,
    WaitForMigration c lst s = (Panicked "migration failed", s', evs1 ++ seg)
    /\ count (isProbe name) seg = 101
    /\ count isSleep seg = 100.
Proof.
  intros Hsplit Hpre Hdead.
  destruct (waitLoop_unreadable c name (attempts + 1) 0 s1)
    as (s' & seg & Hrun & Hp & Hs).
  - unfold attempts. lia.
  - lia.
  - intros t _. apply Hdead.
  - exists s', seg. split; [|split; [exact Hp | exact Hs]].
    rewrite WaitForMigration_run, Hsplit, forEach_app.
    erewrite bind_returned by exact Hpre.
    cbn [forEach]. erewrite bind_panicked by exact Hrun.
    reflexivity.
Qed.

(** C2. When the wait reaches a table whose probe first succeeds on
    attempt [k], with [k] below the attempt ceiling, [WaitForMigration]
    spends exactly [k] probes and [k - 1] sleeps, each of 50ms, on that
    table and goes on with the tables that follow it in the iteration; no
    other part of the run probes that table. For [k = 1] there is no
    sleep. *)
Theorem WaitForMigration_readable_on_kth_attempt
    (lst : Types) (s s1 : State W) (name : string) (ent : Entity)
    (pre post : list (string * Entity)) (evs1 : list Event) (k : nat) :
  GoMapRange c ->
  fst (mapiter c lst (world s)) = pre ++ (name, ent) :: post ->
  forEach pre (waitBody c) (setWorld s (snd (mapiter c lst (world s))))
    = (Returned tt, s1, evs1) ->
  readableOn c name k (world s1) ->
  k < attempts ->
  exists s2 seg,
    waitTable c name s1 = (Returned tt, s2, seg)
    /\ count (isProbe name) seg = k
    /\ count isSleep seg = k - 1
    /\ count isBackoff seg = k - 1
    /\ (k = 1 -> count isSleep seg = 0)
    /\ WaitForMigration c lst s =
         (outcome (forEach post (waitBody c) s2), final (forEach post (waitBody c) s2),
          evs1 ++ seg ++ events (forEach post (waitBody c) s2))
    /\ count (isProbe name) (events (WaitForMigration c lst s)) = k.
Proof.
  intros Hrange Hsplit Hpre Hread Hk.
  destruct k as [|j]; [contradiction|]. destruct Hread as [Hfail Hok].
  destruct (waitLoop_readable c name j (attempts + 1) 0 s1)
    as (seg & Hrun & Hp & _ & Hs & Hb & _); [lia | lia | assumption | assumption |].
  destruct (range_split_names lst (world s) pre name ent post Hrange Hsplit)
    as [Hnpre Hnpost].
  assert (Hall : WaitForMigration c lst s =
            (outcome (forEach post (waitBody c) (setWorld s1 (snd (db_Raw_Scan c (describe name)
                            (Nat.iter j (retryWorld c name) (world s1)))))),
             final (forEach post (waitBody c) (setWorld s1 (snd (db_Raw_Scan c (describe name)
                            (Nat.iter j (retryWorld c name) (world s1)))))),
             evs1 ++ seg ++ events (forEach post (waitBody c) (setWorld s1 (snd (db_Raw_Scan c (describe name)
                            (Nat.iter j (retryWorld c name) (world s1)))))))).
  { rewrite WaitForMigration_run, Hsplit, forEach_app.
    erewrite bind_returned by exact Hpre.
    cbn [forEach]. erewrite bind_returned by exact Hrun.
    unfold outcome, final, events. cbn [fst snd]. reflexivity. }
  eexists _, seg. split; [exact Hrun|].
  replace (S j - 1) with j by lia.
  repeat split; try assumption.
  - intros Hj. rewrite Hs. lia.
  - rewrite Hall. unfold events at 1. cbn [snd].
    rewrite !count_app, Hp, (forEach_wait_other name post Hnpost).
    pose proof (forEach_wait_other name pre Hnpre
                  (setWorld s (snd (mapiter c lst (world s))))) as H0.
    rewrite Hpre in H0. unfold events in H0. cbn [snd] in H0. rewrite H0. lia.
Qed.

End WaitAll.

(** ** The table provisioner *)

Section Provisioner.

Context {W : Type}.
Context (f : Entity -> W -> error * W) (ev : Entity -> error -> Event).

Lemma ddlBody_ok name ent (s : State W) w1 :
  f ent (world s) = (None, w1) ->
  ddlBody f ev (name, ent) s = (Returned tt, setWorld s w1, [ev ent None]).
Proof.
  intros E. unfold ddlBody, bind, call, ret. cbn [snd]. rewrite E. reflexivity.
Qed.

Lemma ddlBody_err name ent (s : State W) e w1 :
  f ent (world s) = (Some e, w1) ->
  ddlBody f ev (name, ent) s = (Panicked e, setWorld s w1, [ev ent (Some e)]).
Proof.
  intros E. unfold ddlBody, bind, call, panic. cbn [snd]. rewrite E. reflexivity.
Qed.

Lemma ddl_step_ok name ent kvs (s : State W) w1 :
  f ent (world s) = (None, w1) ->
  forEach ((name, ent) :: kvs) (ddlBody f ev) s =
    (outcome (forEach kvs (ddlBody f ev) (setWorld s w1)),
     final (forEach kvs (ddlBody f ev) (setWorld s w1)),
     ev ent None :: events (forEach kvs (ddlBody f ev) (setWorld s w1))).
Proof.
  intros E. cbn [forEach].
  rewrite (bind_returned _ _ _ _ _ _ (ddlBody_ok name _ _ _ E)). reflexivity.
Qed.

Lemma ddl_step_err name ent kvs (s : State W) e w1 :
  f ent (world s) = (Some e, w1) ->
  forEach ((name, ent) :: kvs) (ddlBody f ev) s =
    (Panicked e, setWorld s w1, [ev ent (Some e)]).
Proof.
  intros E. cbn [forEach].
  rewrite (bind_panicked _ _ _ _ _ _ (ddlBody_err name _ _ _ _ E)). reflexivity.
Qed.

(** What the loop has done when it is over: either every entity was
    processed without error, or it stopped at the first call that
    reported one and panicked with that error. *)
Lemma ddl_spec kvs :
  forall s : State W,
    match outcome (forEach kvs (ddlBody f ev) s) with
    | Returned _ => events (forEach kvs (ddlBody f ev) s) = okEvents ev kvs
    | Panicked v =>
        exists pre name ent post,
          kvs = pre ++ (name, ent) :: post
          /\ events (forEach kvs (ddlBody f ev) s) = okEvents ev pre ++ [ev ent (Some v)]
    end.
Proof.
  induction kvs as [|[name ent] kvs IH]; intros s; [reflexivity|].
  destruct (f ent (world s)) as [[e|] w1] eqn:E.
  - rewrite (ddl_step_err _ _ _ _ _ _ E). cbn.
    exists [], name, ent, kvs. split; reflexivity.
  - rewrite (ddl_step_ok _ _ _ _ _ E). proj_run.
    specialize (IH (setWorld s w1)).
    destruct (outcome (forEach kvs (ddlBody f ev) (setWorld s w1))).
    + rewrite IH. reflexivity.
    + destruct IH as (pre & name' & ent' & post & -> & ->).
      exists ((name, ent) :: pre), name', ent', post. split; reflexivity.
Qed.

(** The loop stops at the first error and leaves the environment as the
    calls made so far have left it. *)
Lemma ddl_stops_at_first_error pre :
  forall name ent post (s : State W) w1 e w2,
    allOk f pre.*2 (world s) = Some w1 ->
    f ent w1 = (Some e, w2) ->
    forEach (pre ++ (name, ent) :: post) (ddlBody f ev) s =
      (Panicked e, setWorld s w2, okEvents ev pre ++ [ev ent (Some e)]).
Proof.
  induction pre as [|[name0 ent0] pre IH]; intros name ent post s w1 e w2 Hok Herr.
  - cbn in Hok. injection Hok as <-. cbn [app]. apply ddl_step_err. assumption.
  - cbn in Hok. destruct (f ent0 (world s)) as [[e0|] w0] eqn:E; [discriminate|].
    cbn [app]. rewrite (ddl_step_ok _ _ _ _ _ E).
    rewrite (IH name ent post (setWorld s w0) w1 e w2 Hok Herr). reflexivity.
Qed.

(** When every call succeeds the loop returns, in the environment the
    calls have produced. *)
Lemma ddl_all_ok kvs :
  forall (s : State W) w1,
    allOk f kvs.*2 (world s) = Some w1 ->
    forEach kvs (ddlBody f ev) s = (Returned tt, setWorld s w1, okEvents ev kvs).
Proof.
  induction kvs as [|[name ent] kvs IH]; intros s w1 Hok.
  - cbn in Hok. injection Hok as <-. cbn. rewrite setWorld_world. reflexivity.
  - cbn in Hok. destruct (f ent (world s)) as [[e0|] w0] eqn:E; [discriminate|].
    rewrite (ddl_step_ok _ _ _ _ _ E), (IH (setWorld s w0) w1 Hok). reflexivity.
Qed.

(** An entity whose call always reports an error makes the loop panic. *)
Lemma ddl_error_is_fatal kvs ent :
  ent ∈ kvs.*2 ->
  (forall w, fst (f ent w) <> None) ->
  forall s : State W, exists v, outcome (forEach kvs (ddlBody f ev) s) = Panicked v.
Proof.
  intros Hin Hbad. induction kvs as [|[name0 ent0] kvs IH]; intros s.
  - inversion Hin.
  - destruct (f ent0 (world s)) as [[e|] w1] eqn:E.
    + rewrite (ddl_step_err _ _ _ _ _ _ E). eexists. reflexivity.
    + rewrite (ddl_step_ok _ _ _ _ _ E). proj_run.
      rewrite fmap_cons in Hin. apply elem_of_cons in Hin as [->|Hin].
      * exfalso. apply (Hbad (world s)). cbn [snd]. rewrite E. reflexivity.
      * apply IH. assumption.
Qed.

(** Calls that never report an error let the loop return. *)
Lemma ddl_no_error_returns kvs :
  (forall ent w, ent ∈ kvs.*2 -> fst (f ent w) = None) ->
  forall s : State W, outcome (forEach kvs (ddlBody f ev) s) = Returned tt.
Proof.
  induction kvs as [|[name0 ent0] kvs IH]; intros Hgood s; [reflexivity|].
  destruct (f ent0 (world s)) as [[e|] w1] eqn:E.
  - exfalso. pose proof (Hgood ent0 (world s)) as H. rewrite E in H.
    discriminate H. rewrite fmap_cons. left.
  - rewrite (ddl_step_ok _ _ _ _ _ E). proj_run.
    apply IH. intros ent w Hin. apply Hgood. rewrite fmap_cons. right. assumption.
Qed.

(** The loop only touches the environment. *)
Lemma ddl_final kvs :
  forall s : State W, exists w, final (forEach kvs (ddlBody f ev) s) = setWorld s w.
Proof.
  induction kvs as [|[name ent] kvs IH]; intros s.
  - exists (world s). cbn. rewrite setWorld_world. reflexivity.
  - destruct (f ent (world s)) as [[e|] w1] eqn:E.
    + rewrite (ddl_step_err _ _ _ _ _ _ E). eexists. reflexivity.
    + rewrite (ddl_step_ok _ _ _ _ _ E). proj_run.
      destruct (IH (setWorld s w1)) as [w Hw]. exists w. rewrite Hw. reflexivity.
Qed.

End Provisioner.

Section MigrateDrop.

Context {W : Type} (c : Collab W).

Lemma Migrate_run (lst : Types) (s : State W) :
  Migrate c lst s =
    forEach (fst (mapiter c lst (world s))) (ddlBody (db_AutoMigrate c) EvAutoMigrate)
            (setWorld s (snd (mapiter c lst (world s)))).
Proof.
  unfold Migrate, mapRange.
  destruct (mapiter c lst (world s)) as [kvs w] eqn:E.
  erewrite bind_returned by (rewrite E; reflexivity).
  cbn [fst snd app]. symmetry. apply run_eta.
Qed.

Lemma Drop_run (lst : Types) (s : State W) :
  Drop c lst s =
    forEach (fst (mapiter c lst (world s)))
            (ddlBody (db_DropTableIfExists c) EvDropTableIfExists)
            (setWorld s (snd (mapiter c lst (world s)))).
Proof.
  unfold Drop, mapRange.
  destruct (mapiter c lst (world s)) as [kvs w] eqn:E.
  erewrite bind_returned by (rewrite E; reflexivity).
  cbn [fst snd app]. symmetry. apply run_eta.
Qed.

Lemma ddl_contract f ev (lst : Types) (s : State W) :
  GoMapRange c ->
  FatalOnError f ev lst
    (forEach (fst (mapiter c lst (world s))) (ddlBody f ev)
             (setWorld s (snd (mapiter c lst (world s))))).
Proof.
  intros Hrange. pose proof (Hrange lst (world s)) as Hperm.
  set (kvs := fst (mapiter c lst (world s))) in *.
  set (s0 := setWorld s (snd (mapiter c lst (world s)))).
  assert (Hin : forall name ent, lst !! name = Some ent -> ent ∈ kvs.*2).
  { intros name ent Hl. apply list_elem_of_fmap. exists (name, ent). split; [reflexivity|].
    rewrite Hperm. apply elem_of_map_to_list. assumption. }
  assert (Hni : forall ent, ent ∈ kvs.*2 -> exists name, lst !! name = Some ent).
  { intros ent He. apply list_elem_of_fmap in He as ([name ent'] & -> & He).
    exists name. rewrite Hperm in He. apply elem_of_map_to_list in He. assumption. }
  unfold FatalOnError. split; [|split].
  - pose proof (ddl_spec f ev kvs s0) as Hspec.
    destruct (outcome (forEach kvs (ddlBody f ev) s0)).
    + exists kvs. split; assumption.
    + destruct Hspec as (pre & name & ent & post & Hsplit & Hev).
      exists pre, name, ent, post. split; [rewrite <- Hsplit|]; assumption.
  - intros name ent Hl Hbad. apply (ddl_error_is_fatal f ev kvs ent); eauto.
  - intros Hgood. apply ddl_no_error_returns.
    intros ent w He. destruct (Hni ent He) as [name Hl]. eauto.
Qed.

(** C6. [Migrate] and [Drop] panic as soon as the collaborator reports an
    error for an entity and return no error value; when no call reports
    an error they return after one call for every registered entity. *)
Theorem Migrate_Drop_fatal_on_error (lst : Types) (s : State W) :
  GoMapRange c ->
  FatalOnError (db_AutoMigrate c) EvAutoMigrate lst (Migrate c lst s)
  /\ FatalOnError (db_DropTableIfExists c) EvDropTableIfExists lst (Drop c lst s).
Proof.
  intros Hrange. rewrite Migrate_run, Drop_run.
  split; apply ddl_contract; assumption.
Qed.

(** C9. When the call for an entity reports an error, [Migrate] and
    [Drop] panic in the environment that the calls for the entities
    iterated before it, and the failing call, have produced: the log holds
    those calls and nothing else, so nothing is rolled back, and the
    entities that come later are not touched. *)
Theorem Migrate_Drop_not_atomic (lst : Types) (s : State W)
    (pre post : list (string * Entity)) (name : string) (ent : Entity)
    (w1 w2 : W) (e : string) :
  fst (mapiter c lst (world s)) = pre ++ (name, ent) :: post ->
  (allOk (db_AutoMigrate c) pre.*2 (snd (mapiter c lst (world s))) = Some w1 ->
   db_AutoMigrate c ent w1 = (Some e, w2) ->
   Migrate c lst s =
     (Panicked e, setWorld s w2,
      okEvents EvAutoMigrate pre ++ [EvAutoMigrate ent (Some e)]))
  /\ (allOk (db_DropTableIfExists c) pre.*2 (snd (mapiter c lst (world s))) = Some w1 ->
      db_DropTableIfExists c ent w1 = (Some e, w2) ->
      Drop c lst s =
        (Panicked e, setWorld s w2,
         okEvents EvDropTableIfExists pre ++ [EvDropTableIfExists ent (Some e)])).
Proof.
  intros Hsplit. split; intros Hok Herr.
  - rewrite Migrate_run, Hsplit.
    rewrite (ddl_stops_at_first_error _ _ pre name ent post
               (setWorld s (snd (mapiter c lst (world s)))) w1 e w2 Hok Herr).
    reflexivity.
  - rewrite Drop_run, Hsplit.
    rewrite (ddl_stops_at_first_error _ _ pre name ent post
               (setWorld s (snd (mapiter c lst (world s)))) w1 e w2 Hok Herr).
    reflexivity.
Qed.

End MigrateDrop.

(** ** The lifecycle orchestrator *)

Section Orchestrator.

Context {W : Type} (c : Collab W).

Lemma bind_readEntities {B} (k : Types -> M W B) (s : State W) :
  bind readEntities k s = k (pkgEntities s) s.
Proof.
  unfold bind, readEntities. destruct (k (pkgEntities s) s) as [[o s1] evs].
  reflexivity.
Qed.

Lemma seeds_run (s : State W) :
  (CreateUnknownPlace c ;; CreateUnknownCountry c ;; CreateUnknownCamera c ;;
   CreateUnknownLens c) s
  = (Returned tt, setWorld s (seeded c (world s)), seedEvents).
Proof. reflexivity. Qed.

(** The waiter only touches the environment. *)
Lemma waitLoop_final name :
  forall n i (s : State W), exists w, final (waitLoop c name n i s) = setWorld s w.
Proof.
  induction n as [|n IH]; intros i s.
  - exists (world s). cbn. rewrite setWorld_world. reflexivity.
  - destruct (db_Raw_Scan c (describe name) (world s)) as [[e|] w1] eqn:E.
    + destruct (decide (i = attempts)) as [->|Hi].
      * rewrite (waitLoop_panic _ _ _ _ _ _ E). eexists. reflexivity.
      * rewrite (waitLoop_retry _ _ _ _ _ _ _ E) by assumption. proj_run.
        destruct (IH (S i) (setWorld s (time_Sleep c (50 * Millisecond) w1))) as [w Hw].
        exists w. rewrite Hw. reflexivity.
    + rewrite (waitLoop_break _ _ _ _ _ _ E). eexists. reflexivity.
Qed.

Lemma forEach_wait_final kvs :
  forall s : State W, exists w, final (forEach kvs (waitBody c) s) = setWorld s w.
Proof.
  induction kvs as [|[name ent] kvs IH]; intros s.
  - exists (world s). cbn. rewrite setWorld_world. reflexivity.
  - cbn [forEach]. rewrite bind_run.
    destruct (waitLoop_final name (attempts + 1) 0 s) as [w1 Hw1].
    change (waitLoop c name (attempts + 1) 0 s) with (waitBody c (name, ent) s) in Hw1.
    destruct (outcome (waitBody c (name, ent) s)); proj_run.
    + destruct (IH (final (waitBody c (name, ent) s))) as [w Hw].
      exists w. rewrite Hw, Hw1. reflexivity.
    + exists w1. assumption.
Qed.

Lemma WaitForMigration_final (lst : Types) (s : State W) :
  exists w, final (WaitForMigration c lst s) = setWorld s w.
Proof.
  rewrite WaitForMigration_run.
  destruct (forEach_wait_final (fst (mapiter c lst (world s)))
              (setWorld s (snd (mapiter c lst (world s))))) as [w Hw].
  exists w. rewrite Hw. reflexivity.
Qed.

Lemma Migrate_final (lst : Types) (s : State W) :
  exists w, final (Migrate c lst s) = setWorld s w.
Proof.
  rewrite Migrate_run.
  destruct (ddl_final (db_AutoMigrate c) EvAutoMigrate (fst (mapiter c lst (world s)))
              (setWorld s (snd (mapiter c lst (world s))))) as [w Hw].
  exists w. rewrite Hw. reflexivity.
Qed.

Lemma Drop_final (lst : Types) (s : State W) :
  exists w, final (Drop c lst s) = setWorld s w.
Proof.
  rewrite Drop_run.
  destruct (ddl_final (db_DropTableIfExists c) EvDropTableIfExists
              (fst (mapiter c lst (world s)))
              (setWorld s (snd (mapiter c lst (world s))))) as [w Hw].
  exists w. rewrite Hw. reflexivity.
Qed.

(** [MigrateDb], phase by phase: the creations, then the wait, then the
    four seeds; a panic in a phase ends the run there. *)
Lemma MigrateDb_run (s : State W) :
  MigrateDb c s =
    match outcome (Migrate c (pkgEntities s) s) with
    | Panicked v =>
        (Panicked v, final (Migrate c (pkgEntities s) s),
         events (Migrate c (pkgEntities s) s))
    | Returned _ =>
        match outcome (WaitForMigration c (pkgEntities s)
                         (final (Migrate c (pkgEntities s) s))) with
        | Panicked v =>
            (Panicked v,
             final (WaitForMigration c (pkgEntities s) (final (Migrate c (pkgEntities s) s))),
             events (Migrate c (pkgEntities s) s)
             ++ events (WaitForMigration c (pkgEntities s)
                          (final (Migrate c (pkgEntities s) s))))
        | Returned _ =>
            (Returned tt,
             setWorld s (seeded c (world (final (WaitForMigration c (pkgEntities s)
                                                 (final (Migrate c (pkgEntities s) s)))))),
             events (Migrate c (pkgEntities s) s)
             ++ events (WaitForMigration c (pkgEntities s)
                          (final (Migrate c (pkgEntities s) s)))
             ++ seedEvents)
        end
    end.
Proof.
  unfold MigrateDb. rewrite bind_run, bind_readEntities.
  destruct (Migrate_final (pkgEntities s) s) as [w1 Hw1].
  destruct (outcome (Migrate c (pkgEntities s) s)); [|reflexivity].
  rewrite bind_run, bind_readEntities. proj_run.
  rewrite Hw1. cbn [pkgEntities setWorld]. rewrite <- Hw1.
  destruct (WaitForMigration_final (pkgEntities s) (final (Migrate c (pkgEntities s) s)))
    as [w2 Hw2].
  destruct (outcome (WaitForMigration c (pkgEntities s) (final (Migrate c (pkgEntities s) s))));
    [|reflexivity].
  rewrite seeds_run. proj_run. rewrite Hw2, Hw1. reflexivity.
Qed.

Lemma MigrateDb_final (s : State W) : exists w, final (MigrateDb c s) = setWorld s w.
Proof.
  rewrite MigrateDb_run.
  destruct (Migrate_final (pkgEntities s) s) as [w1 Hw1].
  destruct (WaitForMigration_final (pkgEntities s) (final (Migrate c (pkgEntities s) s)))
    as [w2 Hw2].
  destruct (outcome (Migrate c (pkgEntities s) s)); proj_run; [|eauto].
  destruct (outcome (WaitForMigration c (pkgEntities s) (final (Migrate c (pkgEntities s) s))));
    proj_run.
  - eexists. reflexivity.
  - exists w2. rewrite Hw2, Hw1. reflexivity.
Qed.

End Orchestrator.

(** ** Reading first probes off a log *)

Lemma firstProbe_app name evs1 evs2 :
  firstProbe name (evs1 ++ evs2) =
    match firstProbe name evs1 with
    | Some r => Some r
    | None => firstProbe name evs2
    end.
Proof.
  induction evs1 as [|e evs1 IH]; [reflexivity|].
  cbn [app firstProbe]. destruct (isProbe name e) eqn:E.
  - destruct e; try discriminate E. reflexivity.
  - apply IH.
Qed.

Lemma firstProbe_none name evs :
  count isRawScan evs = 0 -> firstProbe name evs = None.
Proof.
  induction evs as [|e evs IH]; [reflexivity|].
  cbn [count firstProbe]. destruct e; cbn; try (intros H; apply IH; exact H).
  discriminate.
Qed.

Lemma count_disjoint (p q : Event -> bool) evs :
  forallb q evs = true -> (forall e, q e = true -> p e = false) -> count p evs = 0.
Proof.
  intros Hq Hpq. induction evs as [|e evs IH]; [reflexivity|].
  cbn [forallb] in Hq. apply andb_prop in Hq as [Hq1 Hq2].
  cbn [count]. rewrite (Hpq e Hq1), IH by assumption. reflexivity.
Qed.

Lemma forallb_weaken (q p : Event -> bool) evs :
  forallb q evs = true -> (forall e, q e = true -> p e = true) -> forallb p evs = true.
Proof.
  intros Hq Hqp. induction evs as [|e evs IH]; [reflexivity|].
  cbn [forallb] in Hq |- *. apply andb_prop in Hq as [Hq1 Hq2].
  rewrite (Hqp e Hq1), IH by assumption. reflexivity.
Qed.

Lemma count_isEvent_zero (q : Event -> bool) evs e0 :
  forallb q evs = true -> q e0 = false -> count (isEvent e0) evs = 0.
Proof.
  intros Hq Hq0. apply (count_disjoint _ q); [assumption|].
  intros e He. unfold isEvent. apply bool_decide_eq_false_2.
  intros ->. congruence.
Qed.

Lemma okEvents_forall (ev : Entity -> error -> Event) (q : Event -> bool) kvs :
  (forall ent, q (ev ent None) = true) -> forallb q (okEvents ev kvs) = true.
Proof.
  intros Hq. unfold okEvents. induction kvs as [|kv kvs IH]; [reflexivity|].
  cbn [map forallb]. rewrite Hq, IH. reflexivity.
Qed.

Lemma okEvents_count (ev : Entity -> error -> Event) (p : Event -> bool) kvs :
  (forall ent, p (ev ent None) = true) -> count p (okEvents ev kvs) = length kvs.
Proof.
  intros Hp. unfold okEvents. induction kvs as [|kv kvs IH]; [reflexivity|].
  cbn [map count length]. rewrite Hp, IH. reflexivity.
Qed.

Section FirstTry.

Context {W : Type} (c : Collab W).

(** The first event of a wait is the first probe of its table. *)
Lemma waitBody_first_probe name ent (s : State W) :
  firstProbe name (events (waitBody c (name, ent) s))
  = Some (fst (db_Raw_Scan c (describe name) (world s))).
Proof.
  unfold waitBody, waitTable. cbn [fst]. replace (attempts + 1) with (S attempts) by lia.
  destruct (db_Raw_Scan c (describe name) (world s)) as [[e|] w1] eqn:E.
  - rewrite (waitLoop_retry _ _ _ _ _ _ _ E) by (unfold attempts; lia). proj_run.
    cbn [firstProbe]. rewrite isProbe_self. reflexivity.
  - rewrite (waitLoop_break _ _ _ _ _ _ E). proj_run.
    cbn [firstProbe]. rewrite isProbe_self. reflexivity.
Qed.

(** When the first probe of every table succeeds, the wait returns after
    one probe per table and no sleep. *)
Lemma forEach_wait_first_try kvs :
  forall s : State W,
    NoDup kvs.*1 ->
    (forall name, name ∈ kvs.*1 ->
       firstProbe name (events (forEach kvs (waitBody c) s)) = Some None) ->
    outcome (forEach kvs (waitBody c) s) = Returned tt
    /\ count isRawScan (events (forEach kvs (waitBody c) s)) = length kvs
    /\ count isSleep (events (forEach kvs (waitBody c) s)) = 0.
Proof.
  induction kvs as [|[name ent] kvs IH]; intros s Hnd Hfirst; [repeat split|].
  rewrite fmap_cons in Hnd. cbn [fst] in Hnd. apply NoDup_cons in Hnd as [Hnot Hnd].
  pose proof (waitBody_first_probe name ent s) as H1.
  assert (Hhead : firstProbe name (events (forEach ((name, ent) :: kvs) (waitBody c) s))
                  = Some (fst (db_Raw_Scan c (describe name) (world s)))).
  { cbn [forEach]. rewrite bind_run.
    destruct (outcome (waitBody c (name, ent) s)); proj_run.
    - rewrite firstProbe_app, H1. reflexivity.
    - exact H1. }
  rewrite (Hfirst name) in Hhead by (rewrite fmap_cons; left).
  destruct (db_Raw_Scan c (describe name) (world s)) as [err w1] eqn:E.
  cbn [fst] in Hhead. injection Hhead as <-.
  assert (Hrun : waitBody c (name, ent) s =
            (Returned tt, setWorld s w1,
             [EvRawScan (describe name) None;
              EvDebugf ("entity: table " +:+ name +:+ " migrated")])).
  { unfold waitBody, waitTable. replace (attempts + 1) with (S attempts) by lia.
    apply waitLoop_break. assumption. }
  cbn [forEach] in Hfirst |- *.
  rewrite (bind_returned _ _ _ _ _ _ Hrun) in Hfirst |- *.
  revert Hfirst. proj_run. intros Hfirst.
  destruct (IH (setWorld s w1) Hnd) as (Ho & Hp & Hs).
  - intros name' Hin. specialize (Hfirst name' ltac:(rewrite fmap_cons; right; exact Hin)).
    assert (name <> name') by (intros ->; contradiction).
    cbn [app firstProbe] in Hfirst. rewrite isProbe_other in Hfirst by assumption.
    exact Hfirst.
  - rewrite Ho. split; [reflexivity|].
    cbn [app count isRawScan isSleep length]. rewrite Hp, Hs. split; reflexivity.
Qed.

End FirstTry.

Section MigrateDbSpec.

Context {W : Type} (c : Collab W).

Lemma range_length (lst : Types) (w : W) :
  GoMapRange c -> length (fst (mapiter c lst w)) = size lst.
Proof. intros Hrange. rewrite (Hrange lst w). apply length_map_to_list. Qed.

Lemma range_names (lst : Types) (w : W) name :
  GoMapRange c -> name ∈ (fst (mapiter c lst w)).*1 <-> is_Some (lst !! name).
Proof.
  intros Hrange. rewrite (Hrange lst w). split.
  - intros Hin. apply list_elem_of_fmap in Hin as ([name' ent] & -> & Hin).
    apply elem_of_map_to_list in Hin. eexists. exact Hin.
  - intros [ent Hl]. apply list_elem_of_fmap. exists (name, ent).
    split; [reflexivity|]. apply elem_of_map_to_list. assumption.
Qed.

(** A run of [MigrateDb] that returns: the creations, one per registered
    entity and all without error, then the events of the wait, then the
    four seeds. *)
Lemma MigrateDb_returned (s : State W) :
  GoMapRange c ->
  outcome (MigrateDb c s) = Returned tt ->
  exists kvs ws,
    kvs ≡ₚ map_to_list (pkgEntities s)
    /\ forallb isWaitEvent ws = true
    /\ events (MigrateDb c s) = okEvents EvAutoMigrate kvs ++ ws ++ seedEvents.
Proof.
  intros Hrange. rewrite MigrateDb_run.
  pose proof (ddl_contract c (db_AutoMigrate c) EvAutoMigrate (pkgEntities s) s Hrange)
    as [Hspec _].
  rewrite <- Migrate_run in Hspec.
  destruct (outcome (Migrate c (pkgEntities s) s)); proj_run; [|discriminate].
  destruct Hspec as (kvs & Hperm & Hev).
  pose proof (forEach_wait_events c
                (fst (mapiter c (pkgEntities s) (world (final (Migrate c (pkgEntities s) s)))))
                (setWorld (final (Migrate c (pkgEntities s) s))
                   (snd (mapiter c (pkgEntities s)
                           (world (final (Migrate c (pkgEntities s) s))))))) as Hw.
  rewrite <- WaitForMigration_run in Hw.
  destruct (outcome (WaitForMigration c (pkgEntities s) (final (Migrate c (pkgEntities s) s))));
    proj_run; [|discriminate].
  intros _. exists kvs, (events (WaitForMigration c (pkgEntities s)
                                   (final (Migrate c (pkgEntities s) s)))).
  rewrite Hev. auto.
Qed.

(** When the first probe of every registered table succeeds, [MigrateDb]
    returns after one creation and one probe per registered table, no
    sleep, and each of the four seeds once. *)
Lemma MigrateDb_first_try (s : State W) :
  GoMapRange c ->
  (forall name, is_Some (pkgEntities s !! name) ->
     firstProbe name (events (MigrateDb c s)) = Some None) ->
  outcome (MigrateDb c s) = Returned tt
  /\ count isAutoMigrate (events (MigrateDb c s)) = size (pkgEntities s)
  /\ count isRawScan (events (MigrateDb c s)) = size (pkgEntities s)
  /\ count isSleep (events (MigrateDb c s)) = 0
  /\ count isSeed (events (MigrateDb c s)) = 4
  /\ count (isEvent EvCreateUnknownPlace) (events (MigrateDb c s)) = 1
  /\ count (isEvent EvCreateUnknownCountry) (events (MigrateDb c s)) = 1
  /\ count (isEvent EvCreateUnknownCamera) (events (MigrateDb c s)) = 1
  /\ count (isEvent EvCreateUnknownLens) (events (MigrateDb c s)) = 1.
Proof.
  intros Hrange. rewrite MigrateDb_run.
  set (lst := pkgEntities s).
  set (r1 := Migrate c lst s).
  set (r2 := WaitForMigration c lst (final r1)).
  pose proof (ddl_contract c (db_AutoMigrate c) EvAutoMigrate lst s Hrange) as [Hspec _].
  rewrite <- Migrate_run in Hspec. fold r1 in Hspec.
  destruct (outcome r1) as [[]|v]; proj_run.
  - destruct Hspec as (kvs1 & Hperm1 & Hev1). intros Hfirst.
    assert (Hcs : forallb isAutoMigrate (events r1) = true)
      by (rewrite Hev1; apply okEvents_forall; reflexivity).
    assert (Hws : forallb isWaitEvent (events r2) = true).
    { unfold r2. rewrite WaitForMigration_run. apply forEach_wait_events. }
    assert (Hr2 : forall name, is_Some (lst !! name) ->
                    firstProbe name (events r2) = Some None).
    { intros name Hreg. specialize (Hfirst name Hreg). revert Hfirst.
      destruct (outcome r2); proj_run; rewrite firstProbe_app;
        rewrite (firstProbe_none name (events r1))
          by (apply (count_disjoint _ isAutoMigrate); [assumption | intros []; easy]).
      - rewrite firstProbe_app. destruct (firstProbe name (events r2)); [easy|].
        cbn. discriminate.
      - easy. }
    destruct (forEach_wait_first_try c
                (fst (mapiter c lst (world (final r1))))
                (setWorld (final r1) (snd (mapiter c lst (world (final r1))))))
      as (Ho & Hp & Hs).
    + rewrite (Hrange lst (world (final r1))). apply NoDup_fst_map_to_list.
    + intros name Hin. rewrite <- WaitForMigration_run. apply Hr2.
      apply (range_names lst (world (final r1)) name Hrange). assumption.
    + rewrite <- WaitForMigration_run in Ho, Hp, Hs. fold r2 in Ho, Hp, Hs.
      rewrite Ho. proj_run. rewrite !count_app, Hp, Hs.
      rewrite (range_length lst _ Hrange).
      rewrite Hev1 at 1. rewrite okEvents_count by reflexivity.
      rewrite (Permutation_length Hperm1), length_map_to_list.
      rewrite (count_disjoint isAutoMigrate isWaitEvent (events r2)) by (assumption || intros []; easy).
      rewrite (count_disjoint isRawScan isAutoMigrate (events r1)) by (assumption || intros []; easy).
      rewrite (count_disjoint isSleep isAutoMigrate (events r1)) by (assumption || intros []; easy).
      rewrite (count_disjoint isSeed isAutoMigrate (events r1)) by (assumption || intros []; easy).
      rewrite (count_disjoint isSeed isWaitEvent (events r2)) by (assumption || intros []; easy).
      rewrite !(count_isEvent_zero isAutoMigrate (events r1)) by (assumption || reflexivity).
      rewrite !(count_isEvent_zero isWaitEvent (events r2)) by (assumption || reflexivity).
      cbn. repeat split; lia.
  - destruct Hspec as (pre & name & ent & post & Hperm & Hev). intros Hfirst.
    exfalso.
    assert (Hreg : is_Some (lst !! name)).
    { exists ent. apply elem_of_map_to_list. rewrite <- Hperm.
      apply elem_of_app. right. left. }
    specialize (Hfirst name Hreg). rewrite firstProbe_none in Hfirst; [discriminate|].
    rewrite Hev, count_app.
    rewrite (count_disjoint isRawScan isAutoMigrate (okEvents EvAutoMigrate pre));
      [reflexivity | apply okEvents_forall; reflexivity | intros []; easy].
Qed.

End MigrateDbSpec.

Section Lifecycle.

Context {W : Type} (c : Collab W).

Lemma ddl_events_forall f ev (q : Event -> bool) kvs :
  (forall ent err, q (ev ent err) = true) ->
  forall s : State W, forallb q (events (forEach kvs (ddlBody f ev) s)) = true.
Proof.
  intros Hq. induction kvs as [|[name ent] kvs IH]; intros s; [reflexivity|].
  destruct (f ent (world s)) as [[e|] w1] eqn:E.
  - rewrite (ddl_step_err _ _ _ _ _ _ _ _ E). proj_run. cbn. rewrite Hq. reflexivity.
  - rewrite (ddl_step_ok _ _ _ _ _ _ _ E). proj_run. cbn [forallb]. rewrite Hq, IH.
    reflexivity.
Qed.

(** Every run of [MigrateDb] is three phases in a row: creations only,
    then waiter events only, then the seeds, which are the four
    constructors once each when the run returns and none when it panics. *)
Lemma MigrateDb_phases (s : State W) :
  exists cs ws ss,
    events (MigrateDb c s) = cs ++ ws ++ ss
    /\ forallb isAutoMigrate cs = true
    /\ forallb isWaitEvent ws = true
    /\ ((ss = seedEvents /\ outcome (MigrateDb c s) = Returned tt)
        \/ (ss = [] /\ exists v, outcome (MigrateDb c s) = Panicked v)).
Proof.
  rewrite MigrateDb_run.
  assert (H1 : forallb isAutoMigrate (events (Migrate c (pkgEntities s) s)) = true).
  { rewrite Migrate_run. apply ddl_events_forall. reflexivity. }
  assert (H2 : forallb isWaitEvent
                 (events (WaitForMigration c (pkgEntities s)
                            (final (Migrate c (pkgEntities s) s)))) = true).
  { rewrite WaitForMigration_run. apply forEach_wait_events. }
  destruct (outcome (Migrate c (pkgEntities s) s)) as [[]|v]; proj_run.
  - destruct (outcome (WaitForMigration c (pkgEntities s)
                         (final (Migrate c (pkgEntities s) s)))) as [[]|v]; proj_run.
    + eexists _, _, seedEvents. repeat split; [assumption | assumption | left; auto].
    + eexists _, _, []. rewrite app_nil_r.
      repeat split; [assumption | assumption | right; eauto].
  - eexists _, [], []. rewrite !app_nil_r.
    repeat split; [assumption | right; eauto].
Qed.

(** A wait whose first probes all succeed: one probe and one log line
    per table, no sleep, and the run returns. *)
Lemma forEach_wait_at_once kvs :
  forall s : State W,
    readableAtOnce c kvs (world s) ->
    forEach kvs (waitBody c) s
    = (Returned tt, setWorld s (probedWorld c kvs (world s)), readyEvents kvs).
Proof.
  induction kvs as [|[name ent] kvs IH]; intros s Hready.
  - cbn. rewrite setWorld_world. reflexivity.
  - destruct Hready as [Hok Hrest]. cbn [fst] in Hok, Hrest.
    cbn [forEach probedWorld fst].
    destruct (db_Raw_Scan c (describe name) (world s)) as [err w1] eqn:E.
    cbn [fst snd] in Hok, Hrest |- *. subst err.
    assert (Hrun : waitBody c (name, ent) s =
              (Returned tt, setWorld s w1,
               [EvRawScan (describe name) None;
                EvDebugf ("entity: table " +:+ name +:+ " migrated")])).
    { unfold waitBody, waitTable. replace (attempts + 1) with (S attempts) by lia.
      apply waitLoop_break. assumption. }
    rewrite (bind_returned _ _ _ _ _ _ Hrun), (IH (setWorld s w1) Hrest).
    reflexivity.
Qed.

Lemma readyEvents_counts kvs :
  count isRawScan (readyEvents kvs) = length kvs
  /\ count isSleep (readyEvents kvs) = 0
  /\ count isAutoMigrate (readyEvents kvs) = 0
  /\ count isSeed (readyEvents kvs) = 0.
Proof.
  induction kvs as [|kv kvs (H1 & H2 & H3 & H4)]; [repeat split|].
  unfold readyEvents in *. cbn [map concat app count isRawScan isSleep isAutoMigrate isSeed length].
  rewrite H1, H2, H3, H4. repeat split.
Qed.

(** [MigrateDb] on a database that accepts every creation and answers
    the first probe of every table: the whole run. *)
Lemma MigrateDb_ready (s : State W) (w1 : W) :
  allOk (db_AutoMigrate c) (fst (mapiter c (pkgEntities s) (world s))).*2
        (snd (mapiter c (pkgEntities s) (world s))) = Some w1 ->
  readableAtOnce c (fst (mapiter c (pkgEntities s) w1))
                 (snd (mapiter c (pkgEntities s) w1)) ->
  MigrateDb c s
  = (Returned tt,
     setWorld s (seeded c (probedWorld c (fst (mapiter c (pkgEntities s) w1))
                                        (snd (mapiter c (pkgEntities s) w1)))),
     okEvents EvAutoMigrate (fst (mapiter c (pkgEntities s) (world s)))
     ++ readyEvents (fst (mapiter c (pkgEntities s) w1))
     ++ seedEvents).
Proof.
  intros Hok Hready.
  assert (H1 : Migrate c (pkgEntities s) s
               = (Returned tt, setWorld s w1,
                  okEvents EvAutoMigrate (fst (mapiter c (pkgEntities s) (world s))))).
  { rewrite Migrate_run.
    rewrite (ddl_all_ok (db_AutoMigrate c) EvAutoMigrate _
               (setWorld s (snd (mapiter c (pkgEntities s) (world s)))) w1 Hok).
    reflexivity. }
  assert (H2 : WaitForMigration c (pkgEntities s) (setWorld s w1)
               = (Returned tt,
                  setWorld s (probedWorld c (fst (mapiter c (pkgEntities s) w1))
                                          (snd (mapiter c (pkgEntities s) w1))),
                  readyEvents (fst (mapiter c (pkgEntities s) w1)))).
  { rewrite WaitForMigration_run. cbn [world setWorld].
    rewrite forEach_wait_at_once by exact Hready. reflexivity. }
  rewrite MigrateDb_run, H1. proj_run. rewrite H2. proj_run. reflexivity.
Qed.

(** C3. [MigrateDb] is [Migrate], then [WaitForMigration], then the four
    seed constructors, each once, a panic in a phase ending the run
    there: the run is given phase by phase, with its outcome, final state
    and log; and a creation phase that returns has made one [AutoMigrate]
    per registered entity. With the registry {cameras, lenses}, on a
    database that accepts both creations and answers the first probe of
    both tables, the run returns and its log is the 2 creations, then the
    2 probes with their log lines, then the 4 seeds: exactly 2 creations,
    2 probes, no sleep and one call of each seed constructor. *)
Theorem MigrateDb_create_wait_seed (s : State W) :
  GoMapRange c ->
  MigrateDb c s =
    match outcome (Migrate c (pkgEntities s) s) with
    | Panicked v =>
        (Panicked v, final (Migrate c (pkgEntities s) s),
         events (Migrate c (pkgEntities s) s))
    | Returned _ =>
        match outcome (WaitForMigration c (pkgEntities s)
                         (final (Migrate c (pkgEntities s) s))) with
        | Panicked v =>
            (Panicked v,
             final (WaitForMigration c (pkgEntities s) (final (Migrate c (pkgEntities s) s))),
             events (Migrate c (pkgEntities s) s)
             ++ events (WaitForMigration c (pkgEntities s)
                          (final (Migrate c (pkgEntities s) s))))
        | Returned _ =>
            (Returned tt,
             setWorld s (seeded c (world (final (WaitForMigration c (pkgEntities s)
                                                   (final (Migrate c (pkgEntities s) s)))))),
             events (Migrate c (pkgEntities s) s)
             ++ events (WaitForMigration c (pkgEntities s)
                          (final (Migrate c (pkgEntities s) s)))
             ++ [EvCreateUnknownPlace; EvCreateUnknownCountry;
                 EvCreateUnknownCamera; EvCreateUnknownLens])
        end
    end
  /\ (outcome (Migrate c (pkgEntities s) s) = Returned tt ->
      exists kvs,
        kvs ≡ₚ map_to_list (pkgEntities s)
        /\ events (Migrate c (pkgEntities s) s) = okEvents EvAutoMigrate kvs)
  /\ (forall w1,
        pkgEntities s = camerasLenses ->
        allOk (db_AutoMigrate c) (fst (mapiter c camerasLenses (world s))).*2
              (snd (mapiter c camerasLenses (world s))) = Some w1 ->
        readableAtOnce c (fst (mapiter c camerasLenses w1))
                       (snd (mapiter c camerasLenses w1)) ->
        MigrateDb c s
        = (Returned tt,
           setWorld s (seeded c (probedWorld c (fst (mapiter c camerasLenses w1))
                                              (snd (mapiter c camerasLenses w1)))),
           okEvents EvAutoMigrate (fst (mapiter c camerasLenses (world s)))
           ++ readyEvents (fst (mapiter c camerasLenses w1))
           ++ [EvCreateUnknownPlace; EvCreateUnknownCountry;
               EvCreateUnknownCamera; EvCreateUnknownLens])
        /\ count isAutoMigrate (events (MigrateDb c s)) = 2
        /\ count isRawScan (events (MigrateDb c s)) = 2
        /\ count isSleep (events (MigrateDb c s)) = 0
        /\ count isSeed (events (MigrateDb c s)) = 4
        /\ count (isEvent EvCreateUnknownPlace) (events (MigrateDb c s)) = 1
        /\ count (isEvent EvCreateUnknownCountry) (events (MigrateDb c s)) = 1
        /\ count (isEvent EvCreateUnknownCamera) (events (MigrateDb c s)) = 1
        /\ count (isEvent EvCreateUnknownLens) (events (MigrateDb c s)) = 1).
Proof.
  intros Hrange. split; [apply MigrateDb_run|]. split.
  - intros Hret.
    pose proof (ddl_contract c (db_AutoMigrate c) EvAutoMigrate (pkgEntities s) s Hrange)
      as [Hspec _].
    rewrite <- Migrate_run, Hret in Hspec. exact Hspec.
  - intros w1 Hreg Hok Hready.
    pose proof (MigrateDb_ready s w1) as Hrun. rewrite Hreg in Hrun.
    specialize (Hrun Hok Hready). split; [exact Hrun|].
    rewrite Hrun. proj_run.
    destruct (readyEvents_counts (fst (mapiter c camerasLenses w1))) as (R1 & R2 & R3 & R4).
    assert (Hws : forallb isWaitEvent (readyEvents (fst (mapiter c camerasLenses w1))) = true).
    { generalize (fst (mapiter c camerasLenses w1)). intros kvs.
      induction kvs as [|kv kvs IH]; [reflexivity|]. unfold readyEvents in *.
      cbn [map concat app forallb isWaitEvent]. exact IH. }
    assert (Hcs : forallb isAutoMigrate
                    (okEvents EvAutoMigrate (fst (mapiter c camerasLenses (world s)))) = true)
      by (apply okEvents_forall; reflexivity).
    assert (Hsize : size camerasLenses = 2) by reflexivity.
    rewrite !count_app, R1, R2, R3, R4.
    rewrite okEvents_count by reflexivity.
    rewrite !(range_length c camerasLenses _ Hrange), Hsize.
    rewrite (count_disjoint isRawScan isAutoMigrate _ Hcs) by (intros []; easy).
    rewrite (count_disjoint isSleep isAutoMigrate _ Hcs) by (intros []; easy).
    rewrite (count_disjoint isSeed isAutoMigrate _ Hcs) by (intros []; easy).
    rewrite !(count_isEvent_zero isAutoMigrate _ _ Hcs) by reflexivity.
    rewrite !(count_isEvent_zero isWaitEvent _ _ Hws) by reflexivity.
    cbn. repeat split.
Qed.

Lemma MigrateDb_events (s : State W) :
  forallb isMigrateEvent (events (MigrateDb c s)) = true.
Proof.
  rewrite MigrateDb_run.
  assert (H1 : forallb isMigrateEvent (events (Migrate c (pkgEntities s) s)) = true).
  { rewrite Migrate_run. apply ddl_events_forall. reflexivity. }
  assert (H2 : forallb isMigrateEvent
                 (events (WaitForMigration c (pkgEntities s)
                            (final (Migrate c (pkgEntities s) s)))) = true).
  { rewrite WaitForMigration_run.
    apply (forallb_weaken isWaitEvent); [apply forEach_wait_events|].
    intros e Hw. unfold isMigrateEvent. rewrite Hw.
    destruct (isAutoMigrate e); reflexivity. }
  destruct (outcome (Migrate c (pkgEntities s) s)); proj_run; [|assumption].
  destruct (outcome (WaitForMigration c (pkgEntities s) (final (Migrate c (pkgEntities s) s))));
    proj_run; rewrite !forallb_app, H1, H2; reflexivity.
Qed.

Lemma DropTables_run (s : State W) : DropTables c s = Drop c (pkgEntities s) s.
Proof. unfold DropTables. apply bind_readEntities. Qed.

Lemma DropTables_events (s : State W) :
  forallb isDrop (events (DropTables c s)) = true.
Proof. rewrite DropTables_run, Drop_run. apply ddl_events_forall. reflexivity. Qed.

(** [ResetDb], phase by phase. *)
Lemma ResetDb_run (testFixtures : bool) (s : State W) :
  ResetDb c testFixtures s =
    match outcome (DropTables c s) with
    | Panicked v => (Panicked v, final (DropTables c s), events (DropTables c s))
    | Returned _ =>
        match outcome (MigrateDb c (final (DropTables c s))) with
        | Panicked v =>
            (Panicked v, final (MigrateDb c (final (DropTables c s))),
             events (DropTables c s) ++ events (MigrateDb c (final (DropTables c s))))
        | Returned _ =>
            (Returned tt,
             (if testFixtures
              then setWorld (final (MigrateDb c (final (DropTables c s))))
                     (seed_TestFixtures c
                        (world (final (MigrateDb c (final (DropTables c s))))))
              else final (MigrateDb c (final (DropTables c s)))),
             events (DropTables c s) ++ events (MigrateDb c (final (DropTables c s)))
             ++ (if testFixtures then [EvCreateTestFixtures] else []))
        end
    end.
Proof.
  unfold ResetDb. rewrite bind_run.
  destruct (outcome (DropTables c s)); [|reflexivity].
  rewrite bind_run. proj_run.
  destruct (outcome (MigrateDb c (final (DropTables c s)))); [|reflexivity].
  destruct testFixtures; reflexivity.
Qed.

End Lifecycle.

Section ResetAndInit.

Context {W : Type} (c : Collab W).

Lemma DropTables_final (s : State W) : exists w, final (DropTables c s) = setWorld s w.
Proof. rewrite DropTables_run. apply Drop_final. Qed.

Lemma ResetDb_final (testFixtures : bool) (s : State W) :
  exists w, final (ResetDb c testFixtures s) = setWorld s w.
Proof.
  rewrite ResetDb_run.
  destruct (DropTables_final s) as [w1 Hw1].
  destruct (MigrateDb_final c (final (DropTables c s))) as [w2 Hw2].
  destruct (outcome (DropTables c s)); proj_run; [|eauto].
  destruct (outcome (MigrateDb c (final (DropTables c s)))); proj_run.
  - destruct testFixtures; rewrite Hw2, Hw1; eexists; reflexivity.
  - exists w2. rewrite Hw2, Hw1. reflexivity.
Qed.

Lemma ResetDb_fixture_count (testFixtures : bool) (s : State W) :
  count (isEvent EvCreateTestFixtures) (events (ResetDb c testFixtures s))
  = match outcome (ResetDb c testFixtures s) with
    | Returned _ => if testFixtures then 1 else 0
    | Panicked _ => 0
    end.
Proof.
  rewrite ResetDb_run.
  pose proof (count_isEvent_zero isDrop _ EvCreateTestFixtures
                (DropTables_events c s) eq_refl) as HD.
  pose proof (count_isEvent_zero isMigrateEvent _ EvCreateTestFixtures
                (MigrateDb_events c (final (DropTables c s))) eq_refl) as HM.
  destruct (outcome (DropTables c s)); proj_run; [|assumption].
  destruct (outcome (MigrateDb c (final (DropTables c s)))); proj_run;
    rewrite !count_app, HD, HM; [|reflexivity].
  destruct testFixtures; reflexivity.
Qed.

(** C4, as the code has it. [ResetDb] is [DropTables], then [MigrateDb],
    then the fixture routine if [testFixtures] is true, a panic in the
    drop or in the migration ending the run there: the run is given phase
    by phase, with its outcome, final state and log. [DropTables] is
    [Drop] on the registry, and a drop that returns has called
    [DropTableIfExists] once per registered entity. [ResetDb] returns
    exactly when the drop and the migration both return, and the fixture
    routine is called, once, exactly when [testFixtures] is true and the
    drop and the migration have both returned; otherwise it is not
    called. *)
Theorem ResetDb_drop_migrate_fixtures (testFixtures : bool) (s : State W) :
  GoMapRange c ->
  ResetDb c testFixtures s =
    match outcome (DropTables c s) with
    | Panicked v => (Panicked v, final (DropTables c s), events (DropTables c s))
    | Returned _ =>
        match outcome (MigrateDb c (final (DropTables c s))) with
        | Panicked v =>
            (Panicked v, final (MigrateDb c (final (DropTables c s))),
             events (DropTables c s) ++ events (MigrateDb c (final (DropTables c s))))
        | Returned _ =>
            (Returned tt,
             (if testFixtures
              then setWorld (final (MigrateDb c (final (DropTables c s))))
                     (seed_TestFixtures c
                        (world (final (MigrateDb c (final (DropTables c s))))))
              else final (MigrateDb c (final (DropTables c s)))),
             events (DropTables c s) ++ events (MigrateDb c (final (DropTables c s)))
             ++ (if testFixtures then [EvCreateTestFixtures] else []))
        end
    end
  /\ DropTables c s = Drop c (pkgEntities s) s
  /\ pkgEntities (final (DropTables c s)) = pkgEntities s
  /\ (outcome (DropTables c s) = Returned tt ->
      exists kvs,
        kvs ≡ₚ map_to_list (pkgEntities s)
        /\ events (DropTables c s) = okEvents EvDropTableIfExists kvs)
  /\ (outcome (ResetDb c testFixtures s) = Returned tt
      <-> outcome (DropTables c s) = Returned tt
          /\ outcome (MigrateDb c (final (DropTables c s))) = Returned tt)
  /\ (count (isEvent EvCreateTestFixtures) (events (ResetDb c testFixtures s)) = 1
      <-> testFixtures = true
          /\ outcome (DropTables c s) = Returned tt
          /\ outcome (MigrateDb c (final (DropTables c s))) = Returned tt)
  /\ count (isEvent EvCreateTestFixtures) (events (ResetDb c testFixtures s))
     = match outcome (ResetDb c testFixtures s) with
       | Returned _ => if testFixtures then 1 else 0
       | Panicked _ => 0
       end.
Proof.
  intros Hrange.
  assert (Hret : outcome (ResetDb c testFixtures s) = Returned tt
                 <-> outcome (DropTables c s) = Returned tt
                     /\ outcome (MigrateDb c (final (DropTables c s))) = Returned tt).
  { rewrite ResetDb_run.
    destruct (outcome (DropTables c s)) as [[]|v]; proj_run.
    - destruct (outcome (MigrateDb c (final (DropTables c s)))) as [[]|v]; proj_run.
      + split; [intros _; split; reflexivity | reflexivity].
      + split; [discriminate | intros [_ H]; discriminate].
    - split; [discriminate | intros [H _]; discriminate]. }
  split; [apply ResetDb_run|]. split; [apply DropTables_run|].
  split; [destruct (DropTables_final s) as [w ->]; reflexivity|].
  split.
  { intros HoD.
    pose proof (ddl_contract c (db_DropTableIfExists c) EvDropTableIfExists
                  (pkgEntities s) s Hrange) as [HD _].
    rewrite <- Drop_run, <- DropTables_run, HoD in HD. exact HD. }
  split; [exact Hret|]. split; [|apply ResetDb_fixture_count].
  rewrite ResetDb_fixture_count. split.
  - intros Hcount.
    destruct (outcome (ResetDb c testFixtures s)) as [[]|v] eqn:Ho; [|discriminate].
    destruct testFixtures; [|discriminate].
    split; [reflexivity|]. apply Hret. reflexivity.
  - intros (-> & HoD & HoM). rewrite (proj2 Hret (conj HoD HoM)). reflexivity.
Qed.

Lemma InitTestFixtures_provider (s : State W) :
  dbProvider (final (InitTestFixtures c s)) = dbProvider s.
Proof.
  unfold InitTestFixtures, resetFixturesOnce_Do.
  destruct (resetFixturesOnce s); [reflexivity|].
  destruct (ResetDb_final true s) as [w Hw].
  destruct (ResetDb c true s) as [[o s1] evs]. proj_run.
  unfold final in Hw. cbn [fst snd] in Hw. rewrite Hw. reflexivity.
Qed.

(** The gate as one goroutine sees it: after a call the flag is set, and
    a call that finds the flag set does nothing. *)
Lemma InitTestFixtures_once (s : State W) :
  resetFixturesOnce (final (InitTestFixtures c s)) = true
  /\ (resetFixturesOnce s = true -> InitTestFixtures c s = (Returned tt, s, [])).
Proof.
  unfold InitTestFixtures, resetFixturesOnce_Do.
  destruct (resetFixturesOnce s) eqn:E.
  - split; [exact E | reflexivity].
  - split; [|discriminate]. destruct (ResetDb c true s) as [[o s1] evs]. reflexivity.
Qed.

(** C7. With a provider already registered, [InitTestDb] returns nil and
    does nothing else: the state is unchanged (the provider is the one
    that was registered, the gate is as it was) and the log is empty (no
    drop, creation, probe, seed or fixture call). *)
Theorem InitTestDb_provider_registered (dsn : string) (s : State W) :
  dbProvider s <> None ->
  InitTestDb c dsn s = (Returned None, s, []).
Proof.
  intros Hreg. unfold InitTestDb, bind, HasDbProvider.
  rewrite bool_decide_eq_true_2 by assumption. reflexivity.
Qed.

(** C10, as the code has it. With no provider registered, [InitTestDb]
    registers the handle [{Driver: "mysql", Dsn: dsn}] first and runs the
    one-time fixture initialization after that, in the state where the
    handle is the provider; the handle is still the provider at the end;
    the call returns that handle, never nil, whenever the initialization
    returns (in particular when the gate was already used), and panics
    with the initialization otherwise. *)
Theorem InitTestDb_registers_then_initializes (dsn : string) (s : State W) :
  dbProvider s = None ->
  events (InitTestDb c dsn s) =
    EvSetDbProvider {| Driver := "mysql"; Dsn := dsn |}
    :: events (InitTestFixtures c (registered s {| Driver := "mysql"; Dsn := dsn |}))
  /\ final (InitTestDb c dsn s) =
       final (InitTestFixtures c (registered s {| Driver := "mysql"; Dsn := dsn |}))
  /\ dbProvider (final (InitTestDb c dsn s)) = Some {| Driver := "mysql"; Dsn := dsn |}
  /\ outcome (InitTestDb c dsn s) =
       match outcome (InitTestFixtures c (registered s {| Driver := "mysql"; Dsn := dsn |})) with
       | Returned _ => Returned (Some {| Driver := "mysql"; Dsn := dsn |})
       | Panicked v => Panicked v
       end
  /\ (resetFixturesOnce s = true ->
      outcome (InitTestDb c dsn s) = Returned (Some {| Driver := "mysql"; Dsn := dsn |})).
Proof.
  intros Hnone.
  set (db := {| Driver := "mysql"; Dsn := dsn |}).
  assert (Hrun : InitTestDb c dsn s =
            (match outcome (InitTestFixtures c (registered s db)) with
             | Returned _ => Returned (Some db)
             | Panicked v => Panicked v
             end,
             final (InitTestFixtures c (registered s db)),
             EvSetDbProvider db :: events (InitTestFixtures c (registered s db)))).
  { unfold InitTestDb, bind, HasDbProvider, SetDbProvider, ret.
    rewrite bool_decide_eq_false_2 by (rewrite Hnone; intros H; apply H; reflexivity).
    fold db. fold (registered s db).
    destruct (InitTestFixtures c (registered s db)) as [[[[]|v] s1] evs]; proj_run;
      cbn [app]; rewrite ?app_nil_r; reflexivity. }
  rewrite Hrun. proj_run. repeat split.
  - rewrite InitTestFixtures_provider. reflexivity.
  - intros Hdone.
    destruct (InitTestFixtures_once (registered s db)) as [_ Hnoop].
    rewrite (Hnoop Hdone). reflexivity.
Qed.

End ResetAndInit.

(** ** Seed rows *)

Section SeedRows.

Context {W : Type} (c : Collab W) (rows : Seed -> W -> nat).
Context (Hseed : InsertIfAbsent c rows) (Hkeep : KeepsRows c rows).

Lemma seedOp_rows k w : rows k (seedOp c k w) = Nat.max 1 (rows k w).
Proof.
  destruct (Nat.eq_dec (rows k w) 0) as [H0|H0].
  - rewrite (seed_inserts c rows Hseed k w H0), H0. reflexivity.
  - rewrite (seed_keeps c rows Hseed k w H0). lia.
Qed.

Lemma seeded_rows k w : rows k (seeded c w) = Nat.max 1 (rows k w).
Proof.
  unfold seeded.
  change (seed_UnknownLens c) with (seedOp c UnknownLens).
  change (seed_UnknownCamera c) with (seedOp c UnknownCamera).
  change (seed_UnknownCountry c) with (seedOp c UnknownCountry).
  change (seed_UnknownPlace c) with (seedOp c UnknownPlace).
  destruct k;
    repeat first
      [ rewrite seedOp_rows
      | rewrite (seed_frame c rows Hseed) by discriminate ];
    reflexivity.
Qed.

Lemma waitLoop_rows k name :
  forall n i (s : State W),
    rows k (world (final (waitLoop c name n i s))) = rows k (world s).
Proof.
  induction n as [|n IH]; intros i s; [reflexivity|].
  pose proof (rows_Raw_Scan c rows Hkeep k (describe name) (world s)) as HR.
  destruct (db_Raw_Scan c (describe name) (world s)) as [[e|] w1] eqn:E; cbn [snd] in HR.
  - destruct (decide (i = attempts)) as [->|Hi].
    + rewrite (waitLoop_panic _ _ _ _ _ _ E). proj_run. exact HR.
    + rewrite (waitLoop_retry _ _ _ _ _ _ _ E) by assumption. proj_run.
      rewrite IH. cbn [world setWorld].
      rewrite (rows_Sleep c rows Hkeep). exact HR.
  - rewrite (waitLoop_break _ _ _ _ _ _ E). proj_run. exact HR.
Qed.

Lemma forEach_wait_rows k kvs :
  forall s : State W,
    rows k (world (final (forEach kvs (waitBody c) s))) = rows k (world s).
Proof.
  induction kvs as [|[name ent] kvs IH]; intros s; [reflexivity|].
  cbn [forEach]. rewrite bind_run.
  assert (H1 : rows k (world (final (waitBody c (name, ent) s))) = rows k (world s))
    by apply waitLoop_rows.
  destruct (outcome (waitBody c (name, ent) s)); proj_run.
  - rewrite IH. exact H1.
  - exact H1.
Qed.

Lemma WaitForMigration_rows k (lst : Types) (s : State W) :
  rows k (world (final (WaitForMigration c lst s))) = rows k (world s).
Proof.
  rewrite WaitForMigration_run, forEach_wait_rows. cbn [world setWorld].
  apply (rows_mapiter c rows Hkeep).
Qed.

Lemma Migrate_rows k (lst : Types) (s : State W) :
  rows k (world (final (Migrate c lst s))) = rows k (world s).
Proof.
  rewrite Migrate_run.
  transitivity (rows k (world (setWorld s (snd (mapiter c lst (world s))))));
    [|apply (rows_mapiter c rows Hkeep)].
  generalize (setWorld s (snd (mapiter c lst (world s)))).
  induction (fst (mapiter c lst (world s))) as [|[name ent] kvs IH]; intros s0;
    [reflexivity|].
  pose proof (rows_AutoMigrate c rows Hkeep k ent (world s0)) as HA.
  destruct (db_AutoMigrate c ent (world s0)) as [[e|] w1] eqn:E; cbn [snd] in HA.
  - rewrite (ddl_step_err _ _ _ _ _ _ _ _ E). proj_run. exact HA.
  - rewrite (ddl_step_ok _ _ _ _ _ _ _ E). proj_run. rewrite IH. exact HA.
Qed.

(** The default rows after a run of [MigrateDb]: each reference entity
    has its row if the run returned, and nothing has changed if it
    panicked. *)
Lemma MigrateDb_rows k (s : State W) :
  rows k (world (final (MigrateDb c s))) =
    match outcome (MigrateDb c s) with
    | Returned _ => Nat.max 1 (rows k (world s))
    | Panicked _ => rows k (world s)
    end.
Proof.
  rewrite MigrateDb_run.
  pose proof (Migrate_rows k (pkgEntities s) s) as H1.
  pose proof (WaitForMigration_rows k (pkgEntities s)
                (final (Migrate c (pkgEntities s) s))) as H2.
  destruct (outcome (Migrate c (pkgEntities s) s)); proj_run; [|exact H1].
  destruct (outcome (WaitForMigration c (pkgEntities s)
                       (final (Migrate c (pkgEntities s) s)))); proj_run.
  - cbn [world setWorld]. rewrite seeded_rows, H2, H1. reflexivity.
  - rewrite H2, H1. reflexivity.
Qed.

(** C5. With insert-if-absent seed constructors, and a database whose
    other operations leave the default rows alone, a second run of
    [MigrateDb] right after a run that returned leaves every reference
    entity with as many default rows as the first run did; and when the
    database starts with at most one default row of a reference entity, it
    holds exactly one after the first run and exactly one after the
    second. *)
Theorem MigrateDb_twice_seeds_once (s : State W) :
  outcome (MigrateDb c s) = Returned tt ->
  (forall k,
     rows k (world (final (MigrateDb c (final (MigrateDb c s)))))
     = rows k (world (final (MigrateDb c s))))
  /\ (forall k,
        rows k (world s) <= 1 ->
        rows k (world (final (MigrateDb c s))) = 1
        /\ rows k (world (final (MigrateDb c (final (MigrateDb c s))))) = 1).
Proof.
  intros Hret.
  assert (H1 : forall k, rows k (world (final (MigrateDb c s)))
                         = Nat.max 1 (rows k (world s))).
  { intros k. rewrite MigrateDb_rows, Hret. reflexivity. }
  assert (H2 : forall k, rows k (world (final (MigrateDb c (final (MigrateDb c s)))))
                         = rows k (world (final (MigrateDb c s)))).
  { intros k. rewrite (MigrateDb_rows k (final (MigrateDb c s))).
    destruct (outcome (MigrateDb c (final (MigrateDb c s)))); [|reflexivity].
    rewrite H1. lia. }
  split; [exact H2|].
  intros k Hk. rewrite H2, H1. lia.
Qed.

End SeedRows.

(** ** The properties on concrete runs *)

(** The scripted database answers a [range] in the order of
    [map_to_list]. *)
Lemma mock_range : GoMapRange mock.
Proof. intros m w. reflexivity. Defined.

Lemma deadDb_retry name t :
  Nat.iter t (retryWorld mock name) (deadDb name) = deadDb name.
Proof.
  induction t as [|t IH]; [reflexivity|].
  cbn [Nat.iter nat_rect]. fold (Nat.iter t (retryWorld mock name) (deadDb name)).
  rewrite IH. unfold retryWorld, deadDb. cbn. unfold mock_Raw_Scan. cbn [missing].
  rewrite bool_decide_eq_true_2 by (apply list_elem_of_here). reflexivity.
Qed.

Lemma deadDb_unreadable name t : probeAt mock name t (deadDb name) <> None.
Proof.
  unfold probeAt. rewrite deadDb_retry. unfold deadDb. cbn. unfold mock_Raw_Scan.
  cbn [missing].
  rewrite bool_decide_eq_true_2 by (apply list_elem_of_here). discriminate.
Qed.

Lemma mock_seed_rows k k' w :
  mockRows k' (mock_seed k w)
  = if bool_decide (k ∈ seedRows w) then mockRows k' w
    else (if Seed_eq_dec k k' then 1 else 0) + mockRows k' w.
Proof.
  unfold mock_seed, mockRows. destruct (bool_decide (k ∈ seedRows w)); [reflexivity|].
  cbn [seedRows count_occ]. destruct (Seed_eq_dec k k'); reflexivity.
Qed.

Lemma mock_insert_if_absent : InsertIfAbsent mock mockRows.
Proof.
  assert (Hop : forall k, seedOp mock k = mock_seed k) by (intros []; reflexivity).
  split; intros k; [intros w H0 | intros w H0 | intros k' w Hne];
    rewrite Hop, mock_seed_rows.
  - rewrite bool_decide_eq_false_2.
    + rewrite H0. destruct (Seed_eq_dec k k); [reflexivity | congruence].
    + intros Hin. apply list_elem_of_In in Hin.
      apply (count_occ_In Seed_eq_dec) in Hin. unfold mockRows in H0. lia.
  - rewrite bool_decide_eq_true_2; [reflexivity|].
    apply list_elem_of_In, (count_occ_In Seed_eq_dec). unfold mockRows in H0. lia.
  - destruct (bool_decide (k ∈ seedRows w)); [reflexivity|].
    destruct (Seed_eq_dec k k'); [congruence | reflexivity].
Qed.

Lemma mock_keeps_rows : KeepsRows mock mockRows.
Proof.
  split; intros k.
  - intros ent w. cbn. unfold mock_AutoMigrate.
    destruct (bool_decide (ent ∈ broken w)); [reflexivity|].
    destruct (bool_decide (ent ∈ tables w)); reflexivity.
  - intros sql w. cbn. unfold mock_Raw_Scan.
    destruct (bool_decide (sql ∈ missing w)); [reflexivity|].
    destruct (notReady w !! sql) as [[|n]|]; reflexivity.
  - reflexivity.
  - reflexivity.
Qed.

(** C1 on a run: the registry holds "cameras" alone and its probe never
    succeeds. *)
Lemma WaitForMigration_unreadable_101_probes_witness :
  exists s' seg,
    WaitForMigration mock {[ "cameras" := Camera ]} (start ∅ (deadDb "cameras"))
    = (Panicked "migration failed", s', [] ++ seg)
    /\ count (isProbe "cameras") seg = 101
    /\ count isSleep seg = 100.
Proof.
  apply (WaitForMigration_unreadable_101_probes mock {[ "cameras" := Camera ]}
           (start ∅ (deadDb "cameras")) (start ∅ (deadDb "cameras"))
           "cameras" Camera [] [] []).
  - vm_compute. reflexivity.
  - reflexivity.
  - intros t. apply deadDb_unreadable.
Defined.

(** C2 on a run: "cameras" is readable at once, "lenses" on the third
    probe. *)
Lemma WaitForMigration_readable_on_kth_attempt_witness :
  count (isProbe "lenses")
    (events (WaitForMigration mock camerasLenses (start ∅ (slowDb "lenses" 2)))) = 3.
Proof.
  destruct (WaitForMigration_readable_on_kth_attempt mock camerasLenses
              (start ∅ (slowDb "lenses" 2))
              (final (waitBody mock ("cameras", Camera) (start ∅ (slowDb "lenses" 2))))
              "lenses" Lens [("cameras", Camera)] []
              (events (waitBody mock ("cameras", Camera) (start ∅ (slowDb "lenses" 2))))
              3)
    as (s2 & seg & _ & _ & _ & _ & _ & _ & H).
  - exact mock_range.
  - vm_compute. reflexivity.
  - vm_compute. reflexivity.
  - split.
    + intros [|[|t]] Ht; [vm_compute; discriminate | vm_compute; discriminate | lia].
    + vm_compute. reflexivity.
  - unfold attempts. lia.
  - exact H.
Defined.

(** C3 on a run: the registry is {cameras, lenses}, on a database that
    accepts every statement at once. *)
Lemma MigrateDb_create_wait_seed_witness :
  events (MigrateDb mock (start camerasLenses freshDb))
  = [EvAutoMigrate Camera None; EvAutoMigrate Lens None;
     EvRawScan "DESCRIBE `cameras`" None; EvDebugf "entity: table cameras migrated";
     EvRawScan "DESCRIBE `lenses`" None; EvDebugf "entity: table lenses migrated";
     EvCreateUnknownPlace; EvCreateUnknownCountry;
     EvCreateUnknownCamera; EvCreateUnknownLens]
  /\ outcome (MigrateDb mock (start camerasLenses freshDb)) = Returned tt
  /\ count isAutoMigrate (events (MigrateDb mock (start camerasLenses freshDb))) = 2
  /\ count isRawScan (events (MigrateDb mock (start camerasLenses freshDb))) = 2
  /\ count isSleep (events (MigrateDb mock (start camerasLenses freshDb))) = 0
  /\ count isSeed (events (MigrateDb mock (start camerasLenses freshDb))) = 4.
Proof.
  destruct (MigrateDb_create_wait_seed mock (start camerasLenses freshDb) mock_range)
    as (_ & _ & Hscenario).
  destruct (Hscenario (mkMock [] ∅ [] [Lens; Camera] [] 0))
    as (Hrun & Hc & Hp & Hs & Hseed & _).
  - reflexivity.
  - vm_compute. reflexivity.
  - vm_compute. repeat split.
  - split; [rewrite Hrun; vm_compute; reflexivity|].
    split; [rewrite Hrun; reflexivity|].
    repeat split; assumption.
Defined.

(** C4 on runs of the registry {cameras, lenses}: a reset with fixtures
    and one without on a database that accepts everything, and one with
    fixtures on a database where "lenses" never becomes readable. *)
Lemma ResetDb_drop_migrate_fixtures_witness :
  (outcome (ResetDb mock true (start camerasLenses freshDb)) = Returned tt
   /\ count (isEvent EvCreateTestFixtures)
        (events (ResetDb mock true (start camerasLenses freshDb))) = 1)
  /\ count (isEvent EvCreateTestFixtures)
       (events (ResetDb mock false (start camerasLenses freshDb))) = 0
  /\ (outcome (ResetDb mock true (start camerasLenses (deadDb "lenses")))
      = Panicked "migration failed"
      /\ count (isEvent EvCreateTestFixtures)
           (events (ResetDb mock true (start camerasLenses (deadDb "lenses")))) = 0).
Proof.
  destruct (ResetDb_drop_migrate_fixtures mock true (start camerasLenses freshDb) mock_range)
    as (_ & _ & _ & _ & Hret & Hiff & _).
  destruct (ResetDb_drop_migrate_fixtures mock false (start camerasLenses freshDb) mock_range)
    as (_ & _ & _ & _ & _ & _ & Hcount).
  destruct (ResetDb_drop_migrate_fixtures mock true
              (start camerasLenses (deadDb "lenses")) mock_range)
    as (Hrun & _ & _ & _ & _ & _ & Hdead).
  split; [|split].
  - split.
    + apply Hret. split; vm_compute; reflexivity.
    + apply Hiff. split; [reflexivity|]. split; vm_compute; reflexivity.
  - rewrite Hcount. vm_compute. reflexivity.
  - assert (Ho : outcome (ResetDb mock true (start camerasLenses (deadDb "lenses")))
                 = Panicked "migration failed")
      by (rewrite Hrun; vm_compute; reflexivity).
    split; [exact Ho|]. rewrite Hdead, Ho. reflexivity.
Defined.

(** The claim C4 as it was stated fails when a phase panics: with
    [testFixtures] true and the drop of [Camera] refused, [ResetDb] panics
    in the drop, creates nothing, seeds nothing and never calls the
    fixture routine. *)
Lemma ResetDb_always_counterexample :
  outcome (ResetDb mock true (start camerasLenses (brokenDb [Camera])))
  = Panicked "Error 1044: access denied"
  /\ events (ResetDb mock true (start camerasLenses (brokenDb [Camera])))
     = [EvDropTableIfExists Camera (Some "Error 1044: access denied")]
  /\ ~ (count (isEvent EvCreateTestFixtures)
          (events (ResetDb mock true (start camerasLenses (brokenDb [Camera])))) = 1
        <-> true = true).
Proof.
  split; [|split].
  - vm_compute. reflexivity.
  - vm_compute. reflexivity.
  - intros [_ H]. specialize (H eq_refl). vm_compute in H. discriminate.
Qed.

(** The claim C10 as it was stated fails when the one-time
    initialization panics: no provider is registered, the drop of
    [Camera] is refused, and [InitTestDb] panics instead of returning a
    handle; the handle is registered all the same. *)
Lemma InitTestDb_returns_handle_counterexample :
  dbProvider (start camerasLenses (brokenDb [Camera])) = None
  /\ outcome (InitTestDb mock "photoprism:photoprism@tcp(db:3306)/test"
                (start camerasLenses (brokenDb [Camera])))
     = Panicked "Error 1044: access denied"
  /\ (forall h, outcome (InitTestDb mock "photoprism:photoprism@tcp(db:3306)/test"
                           (start camerasLenses (brokenDb [Camera])))
                <> Returned h)
  /\ dbProvider (final (InitTestDb mock "photoprism:photoprism@tcp(db:3306)/test"
                          (start camerasLenses (brokenDb [Camera]))))
     = Some {| Driver := "mysql"; Dsn := "photoprism:photoprism@tcp(db:3306)/test" |}.
Proof.
  repeat split; try (vm_compute; reflexivity).
  intros h. vm_compute. discriminate.
Qed.

(** C5 on a run: two migrations of the full registry on an empty
    database. *)
Lemma MigrateDb_twice_seeds_once_witness :
  map (fun k => mockRows k (world (final (MigrateDb mock (start Entities freshDb)))))
    [UnknownPlace; UnknownCountry; UnknownCamera; UnknownLens] = [1; 1; 1; 1]
  /\ map (fun k => mockRows k (world (final (MigrateDb mock
                                  (final (MigrateDb mock (start Entities freshDb)))))))
       [UnknownPlace; UnknownCountry; UnknownCamera; UnknownLens] = [1; 1; 1; 1].
Proof.
  destruct (MigrateDb_twice_seeds_once mock mockRows mock_insert_if_absent mock_keeps_rows
              (start Entities freshDb)) as [_ Hone].
  - vm_compute. reflexivity.
  - cbn [map].
    destruct (Hone UnknownPlace) as [-> ->]; [vm_compute; lia|].
    destruct (Hone UnknownCountry) as [-> ->]; [vm_compute; lia|].
    destruct (Hone UnknownCamera) as [-> ->]; [vm_compute; lia|].
    destruct (Hone UnknownLens) as [-> ->]; [vm_compute; lia|].
    split; reflexivity.
Defined.

(** C6 on a run: the DDL statements of [Lens] are refused. *)
Lemma Migrate_Drop_fatal_on_error_witness :
  FatalOnError (db_AutoMigrate mock) EvAutoMigrate camerasLenses
    (Migrate mock camerasLenses (start camerasLenses (brokenDb [Lens])))
  /\ FatalOnError (db_DropTableIfExists mock) EvDropTableIfExists camerasLenses
       (Drop mock camerasLenses (start camerasLenses (brokenDb [Lens]))).
Proof.
  apply (Migrate_Drop_fatal_on_error mock camerasLenses
           (start camerasLenses (brokenDb [Lens]))).
  exact mock_range.
Defined.

(** C7 on a run: a provider is registered and the gate is still unused. *)
Lemma InitTestDb_provider_registered_witness :
  InitTestDb mock "photoprism:photoprism@tcp(db:3306)/test"
    (mkState freshDb Entities (Some {| Driver := "mysql"; Dsn := "other" |}) false)
  = (Returned None,
     mkState freshDb Entities (Some {| Driver := "mysql"; Dsn := "other" |}) false,
     []).
Proof.
  apply (InitTestDb_provider_registered mock).
  simpl. discriminate.
Defined.

(** C9 on a run: [Camera] is created, the creation of [Lens] fails, and
    the table of [Camera] is still there after the panic; likewise the
    table of [Camera] is gone after the drop of [Lens] has failed. *)
Lemma Migrate_Drop_not_atomic_witness :
  (outcome (Migrate mock camerasLenses (start camerasLenses (brokenDb [Lens])))
   = Panicked "Error 1044: access denied"
   /\ tables (world (final (Migrate mock camerasLenses
                              (start camerasLenses (brokenDb [Lens]))))) = [Camera])
  /\ (outcome (Drop mock camerasLenses
                 (start camerasLenses (mkMock [] ∅ [Lens] [Camera; Lens] [] 0)))
      = Panicked "Error 1044: access denied"
      /\ tables (world (final (Drop mock camerasLenses
                                 (start camerasLenses
                                    (mkMock [] ∅ [Lens] [Camera; Lens] [] 0))))) = [Lens]).
Proof.
  split.
  - rewrite (proj1 (Migrate_Drop_not_atomic mock camerasLenses
                      (start camerasLenses (brokenDb [Lens]))
                      [("cameras", Camera)] [] "lenses" Lens
                      (mkMock [] ∅ [Lens] [Camera] [] 0)
                      (mkMock [] ∅ [Lens] [Camera] [] 0)
                      "Error 1044: access denied"
                      ltac:(vm_compute; reflexivity))
               ltac:(vm_compute; reflexivity) ltac:(vm_compute; reflexivity)).
    split; reflexivity.
  - rewrite (proj2 (Migrate_Drop_not_atomic mock camerasLenses
                      (start camerasLenses (mkMock [] ∅ [Lens] [Camera; Lens] [] 0))
                      [("cameras", Camera)] [] "lenses" Lens
                      (mkMock [] ∅ [Lens] [Lens] [] 0)
                      (mkMock [] ∅ [Lens] [Lens] [] 0)
                      "Error 1044: access denied"
                      ltac:(vm_compute; reflexivity))
               ltac:(vm_compute; reflexivity) ltac:(vm_compute; reflexivity)).
    split; reflexivity.
Defined.

(** C10 on a run: no provider is registered and every statement
    succeeds. *)
Lemma InitTestDb_registers_then_initializes_witness :
  outcome (InitTestDb mock "photoprism:photoprism@tcp(db:3306)/test"
             (start camerasLenses freshDb))
  = Returned (Some {| Driver := "mysql";
                      Dsn := "photoprism:photoprism@tcp(db:3306)/test" |})
  /\ dbProvider (final (InitTestDb mock "photoprism:photoprism@tcp(db:3306)/test"
                          (start camerasLenses freshDb)))
     = Some {| Driver := "mysql"; Dsn := "photoprism:photoprism@tcp(db:3306)/test" |}.
Proof.
  destruct (InitTestDb_registers_then_initializes mock
              "photoprism:photoprism@tcp(db:3306)/test" (start camerasLenses freshDb))
    as (_ & _ & Hprov & Hout & _).
  - reflexivity.
  - split; [|exact Hprov]. rewrite Hout. vm_compute. reflexivity.
Defined.

(** ** Further properties of the migration waiter *)

Lemma count_le (p q : Event -> bool) evs :
  (forall e, p e = true -> q e = true) -> count p evs <= count q evs.
Proof.
  intros Hpq. induction evs as [|e evs IH]; [reflexivity|].
  cbn [count]. destruct (p e) eqn:E.
  - rewrite (Hpq e E). lia.
  - destruct (q e); lia.
Qed.

Lemma isOkProbe_isProbe name e : isOkProbe name e = true -> isProbe name e = true.
Proof. destruct e as [sql [err|]| | | | | | | | | |]; cbn; congruence. Qed.

Section WaiterAccounting.

Context {W : Type} (c : Collab W).

(** Either the first [n] probes of [name] all fail, or one of them is the
    first to succeed. *)
Lemma probe_search name n (w : W) :
  unreadableFor c name n w \/ exists k, 1 <= k <= n /\ readableOn c name k w.
Proof.
  induction n as [|n IH].
  - left. intros t Ht. lia.
  - destruct IH as [Hfail | (k & Hk & Hread)].
    + destruct (probeAt c name n w) as [e|] eqn:E.
      * left. intros t Ht. destruct (decide (t = n)) as [->|Hne].
        -- rewrite E. discriminate.
        -- apply Hfail. lia.
      * right. exists (S n). split; [lia|]. split; assumption.
    + right. exists k. split; [lia | assumption].
Qed.

(** The books of one wait, entered with the counter and the remaining
    iterations in step: one sleep less than probes, one log line per
    probe, no probe of another table, and the wait ends either by a
    successful probe or by the panic that follows a failed one. *)
Lemma waitLoop_account name :
  forall n i (s : State W),
    n + i = attempts + 1 -> 0 < n ->
    count isRawScan (events (waitLoop c name n i s))
      = count isSleep (events (waitLoop c name n i s)) + 1
    /\ count isRawScan (events (waitLoop c name n i s)) <= n
    /\ count isDebugf (events (waitLoop c name n i s))
       = count isRawScan (events (waitLoop c name n i s))
    /\ count (isProbe name) (events (waitLoop c name n i s))
       = count isRawScan (events (waitLoop c name n i s))
    /\ ((outcome (waitLoop c name n i s) = Returned tt
         /\ count (isOkProbe name) (events (waitLoop c name n i s)) = 1)
        \/ (outcome (waitLoop c name n i s) = Panicked "migration failed"
            /\ count (isOkProbe name) (events (waitLoop c name n i s)) = 0
            /\ exists pre e,
                 events (waitLoop c name n i s)
                 = pre ++ [EvRawScan (describe name) (Some e);
                           EvDebugf ("entity: " +:+ e)])).
Proof.
  induction n as [|n IH]; intros i s Hi Hn; [lia|].
  destruct (db_Raw_Scan c (describe name) (world s)) as [[e|] w1] eqn:E.
  - destruct (decide (i = attempts)) as [->|Hne].
    + rewrite (waitLoop_panic _ _ _ _ _ _ E). proj_run.
      cbn [count isRawScan isSleep isDebugf isProbe isOkProbe].
      rewrite bool_decide_eq_true_2 by reflexivity.
      repeat split; try lia. right. repeat split. exists [], e. reflexivity.
    + rewrite (waitLoop_retry _ _ _ _ _ _ _ E) by assumption. proj_run.
      destruct (IH (S i) (setWorld s (time_Sleep c (50 * Millisecond) w1)))
        as (H1 & H2 & H3 & H4 & H5); [lia | lia |].
      cbn [count isRawScan isSleep isDebugf isProbe isOkProbe].
      rewrite bool_decide_eq_true_2 by reflexivity.
      rewrite H3, H4, H1.
      repeat split; try lia.
      destruct H5 as [[Ho Hc] | (Ho & Hc & pre & e' & Hev)].
      * left. split; [assumption | lia].
      * right. split; [assumption|]. split; [lia|].
        eexists (_ :: _ :: _ :: pre), e'. rewrite Hev. reflexivity.
  - rewrite (waitLoop_break _ _ _ _ _ _ E). proj_run.
    cbn [count isRawScan isSleep isDebugf isProbe isOkProbe].
    rewrite bool_decide_eq_true_2 by reflexivity.
    repeat split; try lia. left. split; reflexivity.
Qed.

End WaiterAccounting.

Section WaiterProperties.

Context {W : Type} (c : Collab W).

(** X1. The wait for one table returns exactly when one of the first 101
    probes succeeds, the last one included, after as many probes as it
    took and one sleep less; it panics with "migration failed" exactly
    when all 101 fail. *)
Theorem waitTable_returns_iff_readable_within_101 (name : string) (s : State W) :
  (outcome (waitTable c name s) = Returned tt
   <-> exists k, 1 <= k <= 101 /\ readableOn c name k (world s))
  /\ (outcome (waitTable c name s) = Panicked "migration failed"
      <-> unreadableFor c name 101 (world s))
  /\ (forall k,
        1 <= k <= 101 -> readableOn c name k (world s) ->
        count (isProbe name) (events (waitTable c name s)) = k
        /\ count isSleep (events (waitTable c name s)) = k - 1).
Proof.
  assert (Hgood : forall k, 1 <= k <= 101 -> readableOn c name k (world s) ->
            outcome (waitTable c name s) = Returned tt
            /\ count (isProbe name) (events (waitTable c name s)) = k
            /\ count isSleep (events (waitTable c name s)) = k - 1).
  { intros [|j] Hk Hread; [lia|]. destruct Hread as [Hfail Hok].
    destruct (waitLoop_readable c name j (attempts + 1) 0 s)
      as (evs & Hrun & Hp & _ & Hs & _); [unfold attempts; lia | unfold attempts; lia
                                          | assumption | assumption |].
    unfold waitTable. rewrite Hrun. proj_run. repeat split; [assumption | lia]. }
  assert (Hbad : unreadableFor c name 101 (world s) ->
            outcome (waitTable c name s) = Panicked "migration failed").
  { intros Hfail.
    destruct (waitLoop_unreadable c name (attempts + 1) 0 s)
      as (s' & evs & Hrun & _); [unfold attempts; lia | lia | exact Hfail |].
    unfold waitTable. rewrite Hrun. reflexivity. }
  assert (Hexcl : unreadableFor c name 101 (world s) ->
            (exists k, 1 <= k <= 101 /\ readableOn c name k (world s)) -> False).
  { intros Hfail ([|j] & Hk & Hread); [lia|]. destruct Hread as [_ Hok].
    apply (Hfail j); [lia | assumption]. }
  destruct (probe_search c name 101 (world s)) as [Hfail | Hread].
  - pose proof (Hbad Hfail) as Ho. split; [|split].
    + split; [rewrite Ho; discriminate | intros H; destruct (Hexcl Hfail H)].
    + split; [intros _; assumption | intros _; assumption].
    + intros k Hk Hr. destruct (Hexcl Hfail). exists k. split; assumption.
  - destruct Hread as (k & Hk & Hread).
    destruct (Hgood k Hk Hread) as (Ho & _). split; [|split].
    + split; [intros _; exists k; split; assumption | intros _; assumption].
    + split; [rewrite Ho; discriminate|].
      intros Hfail. destruct (Hexcl Hfail). exists k. split; assumption.
    + intros k' Hk' Hr'. destruct (Hgood k' Hk' Hr') as (_ & Hp & Hs).
      split; assumption.
Qed.

(** The books of the whole wait over the tables [kvs]. *)
Lemma forEach_wait_account kvs :
  forall s : State W,
    count isRawScan (events (forEach kvs (waitBody c) s)) <= 101 * length kvs
    /\ count isSleep (events (forEach kvs (waitBody c) s)) <= 100 * length kvs
    /\ count isDebugf (events (forEach kvs (waitBody c) s))
       = count isRawScan (events (forEach kvs (waitBody c) s))
    /\ (outcome (forEach kvs (waitBody c) s) = Returned tt ->
        count isRawScan (events (forEach kvs (waitBody c) s))
        = count isSleep (events (forEach kvs (waitBody c) s)) + length kvs)
    /\ (forall v, outcome (forEach kvs (waitBody c) s) = Panicked v ->
        v = "migration failed"
        /\ exists pre name e,
             name ∈ kvs.*1
             /\ events (forEach kvs (waitBody c) s)
                = pre ++ [EvRawScan (describe name) (Some e);
                          EvDebugf ("entity: " +:+ e)]).
Proof.
  induction kvs as [|[name ent] kvs IH]; intros s.
  - cbn. split; [lia|]. split; [lia|]. split; [reflexivity|]. split; [reflexivity|].
    intros v Hv. discriminate.
  - cbn [forEach]. rewrite bind_run.
    destruct (waitLoop_account c name (attempts + 1) 0 s)
      as (H1 & H2 & H3 & H4 & H5); [lia | lia |].
    change (waitLoop c name (attempts + 1) 0 s) with (waitBody c (name, ent) s) in *.
    unfold attempts in H2.
    destruct H5 as [[Ho Hc] | (Ho & Hc & pre & e & Hev)]; rewrite Ho; proj_run.
    + destruct (IH (final (waitBody c (name, ent) s))) as (I1 & I2 & I3 & I4 & I5).
      rewrite !count_app, H3, I3. cbn [length].
      split; [lia|]. split; [lia|]. split; [reflexivity|]. split.
      * intros Hret. specialize (I4 Hret). lia.
      * intros v Hv. destruct (I5 v Hv) as (-> & pre' & name' & e' & Hin & Hev').
        split; [reflexivity|].
        exists (events (waitBody c (name, ent) s) ++ pre'), name', e'.
        split; [rewrite fmap_cons; right; assumption|].
        rewrite Hev', app_assoc. reflexivity.
    + cbn [length]. split; [lia|]. split; [lia|]. split; [assumption|]. split.
      * discriminate.
      * intros v Hv. split; [congruence|].
        exists pre, name, e. split; [rewrite fmap_cons; left | assumption].
Qed.

(** In a wait that returns, every table on the list has exactly one
    successful probe; in any wait, no table is probed more than 101
    times. *)
Lemma forEach_wait_per_table kvs :
  NoDup kvs.*1 ->
  forall (s : State W) name,
    count (isProbe name) (events (forEach kvs (waitBody c) s)) <= 101
    /\ (outcome (forEach kvs (waitBody c) s) = Returned tt ->
        name ∈ kvs.*1 ->
        count (isOkProbe name) (events (forEach kvs (waitBody c) s)) = 1).
Proof.
  induction kvs as [|[name0 ent] kvs IH]; intros Hnd s name.
  - cbn. split; [lia|]. intros _ Hin. inversion Hin.
  - rewrite fmap_cons in Hnd. cbn [fst] in Hnd. apply NoDup_cons in Hnd as [Hnot Hnd].
    cbn [forEach]. rewrite bind_run.
    destruct (waitLoop_account c name0 (attempts + 1) 0 s)
      as (_ & H2 & _ & H4 & H5); [lia | lia |].
    pose proof (waitLoop_other c name name0) as Hother.
    change (waitLoop c name0 (attempts + 1) 0 s) with (waitBody c (name0, ent) s) in *.
    unfold attempts in H2.
    destruct H5 as [[Ho Hc] | (Ho & Hc & _)]; rewrite Ho; proj_run.
    + destruct (IH Hnd (final (waitBody c (name0, ent) s)) name) as [I1 I2].
      rewrite !count_app.
      destruct (decide (name = name0)) as [->|Hne].
      * pose proof (forEach_wait_other c name0 kvs Hnot
                      (final (waitBody c (name0, ent) s))) as Hz.
        pose proof (count_le (isOkProbe name0) (isProbe name0)
                      (events (forEach kvs (waitBody c) (final (waitBody c (name0, ent) s))))
                      (isOkProbe_isProbe name0)) as Hle.
        split; [lia|]. intros _ _. lia.
      * specialize (Hother (not_eq_sym Hne) (attempts + 1) 0 s).
        change (waitLoop c name0 (attempts + 1) 0 s)
          with (waitBody c (name0, ent) s) in Hother.
        pose proof (count_le (isOkProbe name) (isProbe name)
                      (events (waitBody c (name0, ent) s))
                      (isOkProbe_isProbe name)) as Hle.
        split; [lia|]. intros Hret Hin.
        rewrite fmap_cons in Hin. apply elem_of_cons in Hin as [Heq|Hin]; [contradiction|].
        rewrite (I2 Hret Hin). lia.
    + split; [|discriminate].
      destruct (decide (name = name0)) as [->|Hne]; [lia|].
      specialize (Hother (not_eq_sym Hne) (attempts + 1) 0 s).
      change (waitLoop c name0 (attempts + 1) 0 s)
        with (waitBody c (name0, ent) s) in Hother. lia.
Qed.

End WaiterProperties.

Section WaitForMigrationProperties.

Context {W : Type} (c : Collab W).

(** X2. The probe budget of [WaitForMigration]: on every run no table is
    probed more than 101 times, so there are at most 101 probes and 100
    sleeps per registered table; every probe writes exactly one log line;
    and a run that returns has made one probe more than it has slept for
    each registered table. *)
Theorem WaitForMigration_probe_budget (lst : Types) (s : State W) :
  GoMapRange c ->
  count isRawScan (events (WaitForMigration c lst s)) <= 101 * size lst
  /\ count isSleep (events (WaitForMigration c lst s)) <= 100 * size lst
  /\ (forall name, count (isProbe name) (events (WaitForMigration c lst s)) <= 101)
  /\ count isDebugf (events (WaitForMigration c lst s))
     = count isRawScan (events (WaitForMigration c lst s))
  /\ (outcome (WaitForMigration c lst s) = Returned tt ->
      count isRawScan (events (WaitForMigration c lst s))
      = count isSleep (events (WaitForMigration c lst s)) + size lst).
Proof.
  intros Hrange. rewrite WaitForMigration_run.
  destruct (forEach_wait_account c (fst (mapiter c lst (world s)))
              (setWorld s (snd (mapiter c lst (world s)))))
    as (H1 & H2 & H3 & H4 & _).
  rewrite (range_length c lst (world s) Hrange) in H1, H2, H4.
  split; [assumption|]. split; [assumption|]. split; [|split; assumption].
  intros name. apply forEach_wait_per_table.
  rewrite (Hrange lst (world s)). apply NoDup_fst_map_to_list.
Qed.

(** X3. A run of [WaitForMigration] that returns has seen every
    registered table answer a probe without error, exactly once per
    table; and no run probes a table that is not registered. *)
Theorem WaitForMigration_returns_all_readable (lst : Types) (s : State W) :
  GoMapRange c ->
  (outcome (WaitForMigration c lst s) = Returned tt ->
   forall name, is_Some (lst !! name) ->
     count (isOkProbe name) (events (WaitForMigration c lst s)) = 1)
  /\ (forall name, lst !! name = None ->
        count (isProbe name) (events (WaitForMigration c lst s)) = 0).
Proof.
  intros Hrange. rewrite WaitForMigration_run. split.
  - intros Hret name Hreg.
    apply forEach_wait_per_table; [|assumption|].
    + rewrite (Hrange lst (world s)). apply NoDup_fst_map_to_list.
    + apply (range_names c lst (world s) name Hrange). assumption.
  - intros name Hnone. apply forEach_wait_other.
    intros Hin. apply (range_names c lst (world s) name Hrange) in Hin.
    rewrite Hnone in Hin. destruct Hin as [x Hx]. discriminate.
Qed.

(** X4. [WaitForMigration] panics with the fixed value "migration failed"
    and nothing else; the error of the database is not in the panic
    value, it is in the log line that ends the log, right after the failed
    probe of a registered table. *)
Theorem WaitForMigration_panic_value (lst : Types) (s : State W) (v : string) :
  GoMapRange c ->
  outcome (WaitForMigration c lst s) = Panicked v ->
  v = "migration failed"
  /\ exists pre name e,
       is_Some (lst !! name)
       /\ events (WaitForMigration c lst s)
          = pre ++ [EvRawScan (describe name) (Some e); EvDebugf ("entity: " +:+ e)].
Proof.
  intros Hrange. rewrite WaitForMigration_run. intros Hpanic.
  destruct (forEach_wait_account c (fst (mapiter c lst (world s)))
              (setWorld s (snd (mapiter c lst (world s)))))
    as (_ & _ & _ & _ & H5).
  destruct (H5 v Hpanic) as (-> & pre & name & e & Hin & Hev).
  split; [reflexivity|]. exists pre, name, e. split; [|assumption].
  apply (range_names c lst (world s) name Hrange). assumption.
Qed.

(** A [range] over an empty map has nothing to visit. *)
Lemma range_empty (w : W) : GoMapRange c -> fst (mapiter c ∅ w) = [].
Proof.
  intros Hrange. apply Permutation_nil. symmetry.
  rewrite (Hrange ∅ w), map_to_list_empty. reflexivity.
Qed.

(** X5. On an empty registry [Migrate], [Drop] and [WaitForMigration]
    return without a single call to the database, [MigrateDb] only runs
    the four seed constructors, and [ResetDb] only those and, if asked,
    the fixture routine. *)
Theorem empty_registry (s : State W) (testFixtures : bool) :
  GoMapRange c ->
  (outcome (Migrate c ∅ s) = Returned tt /\ events (Migrate c ∅ s) = [])
  /\ (outcome (Drop c ∅ s) = Returned tt /\ events (Drop c ∅ s) = [])
  /\ (outcome (WaitForMigration c ∅ s) = Returned tt
      /\ events (WaitForMigration c ∅ s) = [])
  /\ (pkgEntities s = ∅ ->
      outcome (MigrateDb c s) = Returned tt
      /\ events (MigrateDb c s) = seedEvents
      /\ outcome (ResetDb c testFixtures s) = Returned tt
      /\ events (ResetDb c testFixtures s)
         = seedEvents ++ (if testFixtures then [EvCreateTestFixtures] else [])).
Proof.
  intros Hrange.
  assert (HM : forall s0 : State W,
            outcome (Migrate c ∅ s0) = Returned tt /\ events (Migrate c ∅ s0) = []).
  { intros s0. rewrite Migrate_run, (range_empty (world s0) Hrange). split; reflexivity. }
  assert (HD : forall s0 : State W,
            outcome (Drop c ∅ s0) = Returned tt /\ events (Drop c ∅ s0) = []).
  { intros s0. rewrite Drop_run, (range_empty (world s0) Hrange). split; reflexivity. }
  assert (HW : forall s0 : State W,
            outcome (WaitForMigration c ∅ s0) = Returned tt
            /\ events (WaitForMigration c ∅ s0) = []).
  { intros s0. rewrite WaitForMigration_run, (range_empty (world s0) Hrange).
    split; reflexivity. }
  split; [apply HM|]. split; [apply HD|]. split; [apply HW|].
  intros Hempty.
  assert (HMD : forall s0 : State W, pkgEntities s0 = ∅ ->
            outcome (MigrateDb c s0) = Returned tt /\ events (MigrateDb c s0) = seedEvents).
  { intros s0 H0. rewrite MigrateDb_run, H0.
    destruct (HM s0) as [-> ->].
    destruct (HW (final (Migrate c ∅ s0))) as [-> ->]. split; reflexivity. }
  destruct (HMD s Hempty) as [Ho Hev]. split; [assumption|]. split; [assumption|].
  rewrite ResetDb_run, DropTables_run, Hempty.
  destruct (HD s) as [-> ->].
  destruct (Drop_final c ∅ s) as [w Hw].
  destruct (HMD (final (Drop c ∅ s))) as [-> ->].
  { rewrite Hw. exact Hempty. }
  split; reflexivity.
Qed.

End WaitForMigrationProperties.

(** ** Further properties of the orchestrator and the fixture gate *)

Section LifecycleProperties.

Context {W : Type} (c : Collab W).

(** X6. [MigrateDb] never drops a table, never loads the fixtures and
    never registers a provider; [DropTables] calls nothing but
    [DropTableIfExists]; and [ResetDb], whether it returns or panics,
    leaves the registry, the registered provider and the fixture gate as
    they were. *)
Theorem lifecycle_never (s : State W) (testFixtures : bool) :
  count isDrop (events (MigrateDb c s)) = 0
  /\ count (isEvent EvCreateTestFixtures) (events (MigrateDb c s)) = 0
  /\ count isSetDbProvider (events (MigrateDb c s)) = 0
  /\ forallb isDrop (events (DropTables c s)) = true
  /\ pkgEntities (final (ResetDb c testFixtures s)) = pkgEntities s
  /\ dbProvider (final (ResetDb c testFixtures s)) = dbProvider s
  /\ resetFixturesOnce (final (ResetDb c testFixtures s)) = resetFixturesOnce s.
Proof.
  pose proof (MigrateDb_events c s) as HM.
  split; [apply (count_disjoint _ isMigrateEvent); [assumption | intros []; easy]|].
  split; [apply (count_isEvent_zero isMigrateEvent); [assumption | reflexivity]|].
  split; [apply (count_disjoint _ isMigrateEvent); [assumption | intros []; easy]|].
  split; [apply DropTables_events|].
  destruct (ResetDb_final c testFixtures s) as [w ->]. repeat split.
Qed.

(** X10. A run of [MigrateDb] that returns has made exactly one creation
    per registered entity, at least one and at most 101 probes per
    registered table, one sleep less than probes for each table, the
    four seed calls, and no drop. *)
Theorem MigrateDb_returned_counts (s : State W) :
  GoMapRange c ->
  outcome (MigrateDb c s) = Returned tt ->
  count isAutoMigrate (events (MigrateDb c s)) = size (pkgEntities s)
  /\ size (pkgEntities s) <= count isRawScan (events (MigrateDb c s))
  /\ count isRawScan (events (MigrateDb c s)) <= 101 * size (pkgEntities s)
  /\ count isRawScan (events (MigrateDb c s))
     = count isSleep (events (MigrateDb c s)) + size (pkgEntities s)
  /\ count isSeed (events (MigrateDb c s)) = 4.
Proof.
  intros Hrange. rewrite MigrateDb_run.
  set (lst := pkgEntities s).
  set (r1 := Migrate c lst s).
  set (r2 := WaitForMigration c lst (final r1)).
  pose proof (ddl_contract c (db_AutoMigrate c) EvAutoMigrate lst s Hrange) as [Hspec _].
  rewrite <- Migrate_run in Hspec. fold r1 in Hspec.
  assert (Hws : forallb isWaitEvent (events r2) = true).
  { unfold r2. rewrite WaitForMigration_run. apply forEach_wait_events. }
  destruct (forEach_wait_account c (fst (mapiter c lst (world (final r1))))
              (setWorld (final r1) (snd (mapiter c lst (world (final r1))))))
    as (H1 & _ & _ & H4 & _).
  rewrite <- WaitForMigration_run in H1, H4. fold r2 in H1, H4.
  rewrite (range_length c lst _ Hrange) in H1, H4.
  destruct (outcome r1) as [[]|v]; proj_run; [|discriminate].
  destruct Hspec as (kvs & Hperm & Hev).
  assert (Hcs : forallb isAutoMigrate (events r1) = true)
    by (rewrite Hev; apply okEvents_forall; reflexivity).
  destruct (outcome r2) as [[]|v]; proj_run; [|discriminate].
  intros _. specialize (H4 eq_refl). rewrite !count_app.
  rewrite Hev at 1. rewrite okEvents_count by reflexivity.
  rewrite (Permutation_length Hperm), length_map_to_list.
  rewrite (count_disjoint isAutoMigrate isWaitEvent (events r2)) by (assumption || intros []; easy).
  rewrite (count_disjoint isRawScan isAutoMigrate (events r1)) by (assumption || intros []; easy).
  rewrite (count_disjoint isSleep isAutoMigrate (events r1)) by (assumption || intros []; easy).
  rewrite (count_disjoint isSeed isAutoMigrate (events r1)) by (assumption || intros []; easy).
  rewrite (count_disjoint isSeed isWaitEvent (events r2)) by (assumption || intros []; easy).
  cbn. fold lst. repeat split; lia.
Qed.

(** The guard of [InitTestDb]. *)
Lemma InitTestDb_guarded (dsn : string) (s : State W) :
  dbProvider s <> None -> InitTestDb c dsn s = (Returned None, s, []).
Proof.
  intros Hreg. unfold InitTestDb, bind, HasDbProvider.
  rewrite bool_decide_eq_true_2 by assumption. reflexivity.
Qed.

(** [InitTestDb] past its guard. *)
Lemma InitTestDb_unguarded (dsn : string) (s : State W) :
  dbProvider s = None ->
  InitTestDb c dsn s =
    (match outcome (InitTestFixtures c (registered s {| Driver := "mysql"; Dsn := dsn |})) with
     | Returned _ => Returned (Some {| Driver := "mysql"; Dsn := dsn |})
     | Panicked v => Panicked v
     end,
     final (InitTestFixtures c (registered s {| Driver := "mysql"; Dsn := dsn |})),
     EvSetDbProvider {| Driver := "mysql"; Dsn := dsn |}
       :: events (InitTestFixtures c (registered s {| Driver := "mysql"; Dsn := dsn |}))).
Proof.
  intros Hnone. unfold InitTestDb, bind, HasDbProvider, SetDbProvider, ret.
  rewrite bool_decide_eq_false_2 by (rewrite Hnone; intros H; apply H; reflexivity).
  fold (registered s {| Driver := "mysql"; Dsn := dsn |}).
  destruct (InitTestFixtures c (registered s {| Driver := "mysql"; Dsn := dsn |}))
    as [[[[]|v] s1] evs]; proj_run; cbn [app]; rewrite ?app_nil_r; reflexivity.
Qed.

Lemma InitTestFixtures_unused (s : State W) :
  resetFixturesOnce s = false ->
  outcome (InitTestFixtures c s) = outcome (ResetDb c true s)
  /\ events (InitTestFixtures c s) = events (ResetDb c true s)
  /\ world (final (InitTestFixtures c s)) = world (final (ResetDb c true s))
  /\ resetFixturesOnce (final (InitTestFixtures c s)) = true.
Proof.
  intros Hgate. unfold InitTestFixtures, resetFixturesOnce_Do. rewrite Hgate.
  destruct (ResetDb c true s) as [[o s1] evs]. repeat split.
Qed.

Lemma InitTestFixtures_used (s : State W) :
  resetFixturesOnce s = true -> InitTestFixtures c s = (Returned tt, s, []).
Proof.
  intros Hgate. unfold InitTestFixtures, resetFixturesOnce_Do. rewrite Hgate. reflexivity.
Qed.

Lemma InitTestFixtures_sets_gate (s : State W) :
  resetFixturesOnce (final (InitTestFixtures c s)) = true.
Proof.
  destruct (resetFixturesOnce s) eqn:E.
  - rewrite (InitTestFixtures_used s E). exact E.
  - apply InitTestFixtures_unused. assumption.
Qed.

(** X7. Called one after the other in one goroutine, [InitTestFixtures]
    resets the database at most once: the first call, if the gate is
    unused, does what [ResetDb(true)] does, and any call after it does
    nothing at all, also when the first one has panicked; so the fixtures
    are loaded at most once over the two calls. *)
Theorem InitTestFixtures_at_most_once (s : State W) :
  InitTestFixtures c (final (InitTestFixtures c s))
  = (Returned tt, final (InitTestFixtures c s), [])
  /\ (resetFixturesOnce s = false ->
      outcome (InitTestFixtures c s) = outcome (ResetDb c true s)
      /\ events (InitTestFixtures c s) = events (ResetDb c true s))
  /\ count (isEvent EvCreateTestFixtures)
       (events (InitTestFixtures c s)
        ++ events (InitTestFixtures c (final (InitTestFixtures c s)))) <= 1.
Proof.
  assert (H2 : InitTestFixtures c (final (InitTestFixtures c s))
               = (Returned tt, final (InitTestFixtures c s), []))
    by (apply InitTestFixtures_used, InitTestFixtures_sets_gate).
  split; [exact H2|]. split.
  - intros Hgate. destruct (InitTestFixtures_unused s Hgate) as (Ho & Hev & _).
    split; assumption.
  - rewrite H2. proj_run. rewrite app_nil_r.
    destruct (resetFixturesOnce s) eqn:E.
    + rewrite (InitTestFixtures_used s E). cbn. lia.
    + destruct (InitTestFixtures_unused s E) as (_ & -> & _).
      rewrite ResetDb_fixture_count.
      destruct (outcome (ResetDb c true s)); lia.
Qed.

(** X8. Whatever the first call to [InitTestDb] did (returned a handle,
    returned nil, or panicked in the reset), a second call returns nil,
    changes nothing and calls no collaborator. *)
Theorem InitTestDb_second_call_returns_nil (dsn dsn' : string) (s : State W) :
  InitTestDb c dsn' (final (InitTestDb c dsn s))
  = (Returned None, final (InitTestDb c dsn s), []).
Proof.
  apply InitTestDb_guarded.
  destruct (dbProvider s) as [g|] eqn:E.
  - rewrite InitTestDb_guarded by (rewrite E; discriminate). proj_run.
    rewrite E. discriminate.
  - rewrite (InitTestDb_unguarded dsn s E). proj_run.
    rewrite InitTestFixtures_provider. discriminate.
Qed.

(** X9. In a process with no provider and an unused gate, [InitTestDb]
    registers the handle, then does exactly what [ResetDb(true)] does in
    the state where the handle is registered, and uses up the gate; it
    returns the handle exactly when that reset returns, and then the
    fixtures have been loaded exactly once. *)
Theorem InitTestDb_fresh_process (dsn : string) (s : State W) :
  dbProvider s = None ->
  resetFixturesOnce s = false ->
  events (InitTestDb c dsn s)
  = EvSetDbProvider {| Driver := "mysql"; Dsn := dsn |}
    :: events (ResetDb c true (registered s {| Driver := "mysql"; Dsn := dsn |}))
  /\ resetFixturesOnce (final (InitTestDb c dsn s)) = true
  /\ (outcome (InitTestDb c dsn s) = Returned (Some {| Driver := "mysql"; Dsn := dsn |})
      <-> outcome (ResetDb c true (registered s {| Driver := "mysql"; Dsn := dsn |}))
          = Returned tt)
  /\ (outcome (InitTestDb c dsn s) = Returned (Some {| Driver := "mysql"; Dsn := dsn |}) ->
      count (isEvent EvCreateTestFixtures) (events (InitTestDb c dsn s)) = 1).
Proof.
  intros Hnone Hgate.
  set (db := {| Driver := "mysql"; Dsn := dsn |}).
  pose proof (InitTestDb_unguarded dsn s Hnone) as Hrun. fold db in Hrun.
  destruct (InitTestFixtures_unused (registered s db) Hgate) as (Ho & Hev & _ & Hset).
  rewrite Hrun. proj_run. rewrite Ho, Hev.
  pose proof (ResetDb_fixture_count c true (registered s db)) as Hcount.
  split; [reflexivity|]. split; [assumption|].
  destruct (outcome (ResetDb c true (registered s db))) as [[]|v].
  - split; [split; reflexivity|]. intros _. cbn [count]. unfold isEvent at 1.
    rewrite bool_decide_eq_false_2 by discriminate. rewrite Hcount. reflexivity.
  - split; [split; discriminate | discriminate].
Qed.

End LifecycleProperties.

Section FailureAttribution.

Context {W : Type} (c : Collab W).

(** X11. A run of [MigrateDb] that panics has called no seed
    constructor, and its log tells the phase that failed: either it holds
    creations only and ends with the creation whose error is the panic
    value, or it holds one successful creation per registered entity
    followed by waiter events, ends with a failed probe of a registered
    table and the log line of its error, and the panic value is
    "migration failed". *)
Theorem MigrateDb_panic_phase (s : State W) (v : string) :
  GoMapRange c ->
  outcome (MigrateDb c s) = Panicked v ->
  count isSeed (events (MigrateDb c s)) = 0
  /\ ((exists pre name ent post,
         pre ++ (name, ent) :: post ≡ₚ map_to_list (pkgEntities s)
         /\ events (MigrateDb c s)
            = okEvents EvAutoMigrate pre ++ [EvAutoMigrate ent (Some v)])
      \/ (v = "migration failed"
          /\ exists kvs ws name e,
               kvs ≡ₚ map_to_list (pkgEntities s)
               /\ forallb isWaitEvent ws = true
               /\ is_Some (pkgEntities s !! name)
               /\ events (MigrateDb c s)
                  = okEvents EvAutoMigrate kvs
                    ++ ws ++ [EvRawScan (describe name) (Some e);
                              EvDebugf ("entity: " +:+ e)])).
Proof.
  intros Hrange. rewrite MigrateDb_run.
  set (lst := pkgEntities s).
  set (r1 := Migrate c lst s).
  set (r2 := WaitForMigration c lst (final r1)).
  pose proof (ddl_contract c (db_AutoMigrate c) EvAutoMigrate lst s Hrange) as [Hspec _].
  rewrite <- Migrate_run in Hspec. fold r1 in Hspec.
  assert (Hws : forallb isWaitEvent (events r2) = true).
  { unfold r2. rewrite WaitForMigration_run. apply forEach_wait_events. }
  destruct (forEach_wait_account c (fst (mapiter c lst (world (final r1))))
              (setWorld (final r1) (snd (mapiter c lst (world (final r1))))))
    as (_ & _ & _ & _ & H5).
  rewrite <- WaitForMigration_run in H5. fold r2 in H5.
  destruct (outcome r1) as [[]|v1]; proj_run.
  - destruct Hspec as (kvs & Hperm & Hev).
    destruct (outcome r2) as [[]|v2]; proj_run; [discriminate|].
    intros Hv. injection Hv as ->.
    destruct (H5 v eq_refl) as (-> & pre & name & e & Hin & Hev2).
    split.
    + rewrite count_app.
      assert (Hcs : forallb isAutoMigrate (events r1) = true)
        by (rewrite Hev; apply okEvents_forall; reflexivity).
      rewrite (count_disjoint isSeed isAutoMigrate (events r1))
        by (assumption || intros []; easy).
      rewrite (count_disjoint isSeed isWaitEvent (events r2))
        by (assumption || intros []; easy).
      reflexivity.
    + right. split; [reflexivity|]. exists kvs, pre, name, e.
      split; [assumption|]. split.
      * rewrite Hev2, forallb_app in Hws. apply andb_prop in Hws as [Hpre _]. exact Hpre.
      * split; [apply (range_names c lst (world (final r1)) name Hrange); assumption|].
        rewrite Hev, Hev2. reflexivity.
  - intros Hv. injection Hv as ->.
    destruct Hspec as (pre & name & ent & post & Hperm & Hev).
    split.
    + apply (count_disjoint isSeed isAutoMigrate); [|intros []; easy].
      rewrite Hev, forallb_app, (okEvents_forall EvAutoMigrate isAutoMigrate) by reflexivity.
      reflexivity.
    + left. exists pre, name, ent, post. split; assumption.
Qed.

End FailureAttribution.

(** ** The further properties on concrete runs *)

(** X2 on a run: "lenses" becomes readable on the third probe. *)
Lemma WaitForMigration_probe_budget_witness :
  count isRawScan
    (events (WaitForMigration mock camerasLenses (start ∅ (slowDb "lenses" 2))))
  <= 101 * size camerasLenses
  /\ count isRawScan
       (events (WaitForMigration mock camerasLenses (start ∅ (slowDb "lenses" 2))))
     = count isSleep
         (events (WaitForMigration mock camerasLenses (start ∅ (slowDb "lenses" 2))))
       + size camerasLenses.
Proof.
  destruct (WaitForMigration_probe_budget mock camerasLenses
              (start ∅ (slowDb "lenses" 2)) mock_range)
    as (H1 & _ & _ & _ & H5).
  split; [exact H1|]. apply H5. vm_compute. reflexivity.
Defined.

(** X3 on a run: the same wait, which returns. *)
Lemma WaitForMigration_returns_all_readable_witness :
  count (isOkProbe "lenses")
    (events (WaitForMigration mock camerasLenses (start ∅ (slowDb "lenses" 2)))) = 1
  /\ count (isProbe "photos")
       (events (WaitForMigration mock camerasLenses (start ∅ (slowDb "lenses" 2)))) = 0.
Proof.
  destruct (WaitForMigration_returns_all_readable mock camerasLenses
              (start ∅ (slowDb "lenses" 2)) mock_range)
    as [Hok Hnot].
  split.
  - apply Hok; [vm_compute; reflexivity|]. exists Lens. vm_compute. reflexivity.
  - apply Hnot. vm_compute. reflexivity.
Defined.

(** X4 on a run: the probe of "cameras" never succeeds. *)
Lemma WaitForMigration_panic_value_witness :
  exists pre name e,
    is_Some (({[ "cameras" := Camera ]} : Types) !! name)
    /\ events (WaitForMigration mock {[ "cameras" := Camera ]}
                 (start ∅ (deadDb "cameras")))
       = pre ++ [EvRawScan (describe name) (Some e); EvDebugf ("entity: " +:+ e)].
Proof.
  apply (WaitForMigration_panic_value mock {[ "cameras" := Camera ]}
           (start ∅ (deadDb "cameras")) "migration failed" mock_range).
  vm_compute. reflexivity.
Defined.

(** X5 on a run: a process whose registry is empty. *)
Lemma empty_registry_witness :
  events (MigrateDb mock (start ∅ freshDb)) = seedEvents
  /\ events (ResetDb mock true (start ∅ freshDb)) = seedEvents ++ [EvCreateTestFixtures].
Proof.
  destruct (empty_registry mock (start ∅ freshDb) true mock_range)
    as (_ & _ & _ & Hdb).
  destruct Hdb as (_ & Hm & _ & Hr); [reflexivity|].
  split; assumption.
Defined.

(** X9 on a run: a fresh process on a database that accepts everything. *)
Lemma InitTestDb_fresh_process_witness :
  resetFixturesOnce
    (final (InitTestDb mock "photoprism:photoprism@tcp(db:3306)/test"
              (start camerasLenses freshDb))) = true
  /\ count (isEvent EvCreateTestFixtures)
       (events (InitTestDb mock "photoprism:photoprism@tcp(db:3306)/test"
                  (start camerasLenses freshDb))) = 1.
Proof.
  destruct (InitTestDb_fresh_process mock "photoprism:photoprism@tcp(db:3306)/test"
              (start camerasLenses freshDb))
    as (_ & Hgate & Hiff & Hfix); [reflexivity | reflexivity |].
  split; [exact Hgate|]. apply Hfix, Hiff. vm_compute. reflexivity.
Defined.

(** X10 on a run: the package's own registry on a database that accepts
    everything. *)
Lemma MigrateDb_returned_counts_witness :
  count isAutoMigrate (events (MigrateDb mock (start Entities freshDb))) = size Entities
  /\ count isSeed (events (MigrateDb mock (start Entities freshDb))) = 4.
Proof.
  destruct (MigrateDb_returned_counts mock (start Entities freshDb) mock_range)
    as (Hc & _ & _ & _ & Hs); [vm_compute; reflexivity|].
  split; assumption.
Defined.

(** X11 on a run: the creation of [Lens] is refused. *)
Lemma MigrateDb_panic_phase_witness :
  count isSeed (events (MigrateDb mock (start camerasLenses (brokenDb [Lens])))) = 0.
Proof.
  apply (MigrateDb_panic_phase mock (start camerasLenses (brokenDb [Lens]))
           "Error 1044: access denied" mock_range).
  vm_compute. reflexivity.
Defined.
